(** * xtraceback: the formatting engine of [xtraceback/xtraceback.py]

    A shallow embedding of [XTracebackOptions] and [XTraceback] and the
    properties of the formatter that the specification states.

    Python values are modelled as follows: [str] as [string] (one [ascii] per
    8-bit character), [int] as [Z], the keyword dictionary [**options] as a
    [gmap string PyVal], lists as [list].  Calls that can raise return a
    [Result]; methods that warn, cache the lexer or write to the stream thread
    a [World]. *)

From Stdlib Require Import ZArith Lia Ascii String List Bool.
From Stdlib Require Import Numbers.DecimalString.
From stdpp Require Import base gmap strings list fin_maps.

Local Open Scope Z_scope.

(** ** Python's [str] primitives used by the module *)

Module PyStr.

(** [len(s)] *)
Definition len (s : string) : Z := Z.of_nat (String.length s).

Fixpoint take (n : nat) (s : string) : string :=
  match n, s with
  | S n', String c s' => String c (take n' s')
  | _, _ => EmptyString
  end.

(** [s[:n]]: a negative bound counts from the end of the string. *)
Definition slice_to (s : string) (n : Z) : string :=
  if 0 <=? n then take (Z.to_nat n) s
  else take (Z.to_nat (len s + n)) s.

Fixpoint repeat_char (c : ascii) (n : nat) : string :=
  match n with
  | O => EmptyString
  | S n' => String c (repeat_char c n')
  end.

(** [" " * n]: empty when [n <= 0]. *)
Definition spaces (n : Z) : string := repeat_char " " (Z.to_nat n).

(** [sep.join(l)] *)
Fixpoint join (sep : string) (l : list string) : string :=
  match l with
  | [] => EmptyString
  | [x] => x
  | x :: xs => x +:+ sep +:+ join sep xs
  end.

(** [s.startswith(p)] *)
Fixpoint startswith (p s : string) : bool :=
  match p, s with
  | EmptyString, _ => true
  | String a p', String b s' => if Ascii.eqb a b then startswith p' s' else false
  | String _ _, EmptyString => false
  end.

Fixpoint drop (n : nat) (s : string) : string :=
  match n, s with
  | S n', String _ s' => drop n' s'
  | _, _ => s
  end.

(** [s.replace(old, new)] for a non-empty [old]: every non-overlapping
    occurrence, scanning from the left.  [skip] counts the characters of a
    match still to be dropped, which keeps the recursion structural. *)
Fixpoint replace_from (old new : string) (skip : nat) (s : string) : string :=
  match s with
  | EmptyString => EmptyString
  | String c s' =>
      match skip with
      | S k => replace_from old new k s'
      | O =>
          if startswith old s
          then new +:+ replace_from old new (String.length old - 1)%nat s'
          else String c (replace_from old new 0 s')
      end
  end.

Definition replace (old new s : string) : string :=
  match old with
  | EmptyString => s
  | _ => replace_from old new 0 s
  end.

Fixpoint mem (c : ascii) (chars : string) : bool :=
  match chars with
  | EmptyString => false
  | String d r => Ascii.eqb c d || mem c r
  end.

(** [s.lstrip(chars)]: [chars] is a set of characters, not a prefix. *)
Fixpoint lstrip_chars (chars s : string) : string :=
  match s with
  | String c s' => if mem c chars then lstrip_chars chars s' else s
  | EmptyString => EmptyString
  end.

(** [s.rstrip(chars)] *)
Fixpoint rstrip_chars (chars s : string) : string :=
  match s with
  | EmptyString => EmptyString
  | String c s' =>
      match rstrip_chars chars s' with
      | EmptyString => if mem c chars then EmptyString else String c EmptyString
      | r => String c r
      end
  end.

(** The whitespace of an 8-bit [str]: space, \t, \n, \v, \f, \r. *)
Definition whitespace : string :=
  String " " (String "009" (String "010" (String "011" (String "012"
    (String "013" EmptyString))))).

(** [c.isspace()] *)
Definition isspace (c : ascii) : bool := mem c whitespace.

Definition lstrip (s : string) : string := lstrip_chars whitespace s.
Definition rstrip (s : string) : string := rstrip_chars whitespace s.
(** [s.strip()] *)
Definition strip (s : string) : string := rstrip (lstrip s).

Definition nl : ascii := "010".
Definition cr : ascii := "013".

(** [s.splitlines()] of an 8-bit [str]: breaks at \n, \r and \r\n, the
    breaks are dropped, and a final break opens no empty last line.
    [after_cr] says that the previous character was \r, so that a \n that
    follows belongs to the same break. *)
Fixpoint splitlines_from (after_cr : bool) (s : string) : list string :=
  match s with
  | EmptyString => []
  | String c s' =>
      if Ascii.eqb c nl then
        if after_cr then splitlines_from false s'
        else EmptyString :: splitlines_from false s'
      else if Ascii.eqb c cr then EmptyString :: splitlines_from true s'
      else match splitlines_from false s' with
           | [] => [String c EmptyString]
           | l :: ls => String c l :: ls
           end
  end.

Definition splitlines (s : string) : list string := splitlines_from false s.

(** [s.split(d)] for a one-character separator [d] *)
Fixpoint split_on (d : ascii) (s : string) : list string :=
  match s with
  | EmptyString => [EmptyString]
  | String c s' =>
      if Ascii.eqb c d then EmptyString :: split_on d s'
      else match split_on d s' with
           | [] => [String c EmptyString]
           | l :: ls => String c l :: ls
           end
  end.

(** [s.split("\n")]: the lines a reader sees in a text. *)
Definition split_nl (s : string) : list string := split_on nl s.

(** No \n inside. *)
Fixpoint no_nl (s : string) : bool :=
  match s with
  | EmptyString => true
  | String c s' => negb (Ascii.eqb c nl) && no_nl s'
  end.

(** [str(n)] of an [int] *)
Definition of_int (n : Z) : string :=
  match n with
  | Z0 => "0"
  | _ => NilEmpty.string_of_int (Z.to_int n)
  end.

Definition hex_digit (n : nat) : ascii :=
  match n with
  | 0 => "0" | 1 => "1" | 2 => "2" | 3 => "3" | 4 => "4" | 5 => "5"
  | 6 => "6" | 7 => "7" | 8 => "8" | 9 => "9" | 10 => "a" | 11 => "b"
  | 12 => "c" | 13 => "d" | 14 => "e" | _ => "f"
  end%nat%char.

Definition squote : ascii := "039".
Definition dquote : ascii := "034".
Definition backslash : ascii := "092".

Definition escape (c : ascii) : string := String backslash (String c EmptyString).

(** One character of [repr(s)] inside the quotes [q]. *)
Definition repr_char (q c : ascii) : string :=
  if Ascii.eqb c q || Ascii.eqb c backslash then escape c
  else if Ascii.eqb c "009" then escape "t"
  else if Ascii.eqb c nl then escape "n"
  else if Ascii.eqb c cr then escape "r"
  else
    let n := nat_of_ascii c in
    if (n <? 32)%nat || (127 <=? n)%nat
    then String backslash (String "x" (String (hex_digit (n / 16))
                            (String (hex_digit (n mod 16)) EmptyString)))
    else String c EmptyString.

Fixpoint repr_body (q : ascii) (s : string) : string :=
  match s with
  | EmptyString => EmptyString
  | String c s' => repr_char q c +:+ repr_body q s'
  end.

(** [repr(s)] of a [str]: single quotes, unless the string has a single
    quote and no double quote. *)
Definition repr (s : string) : string :=
  let q := if mem squote s && negb (mem dquote s) then dquote else squote in
  String q (repr_body q s +:+ String q EmptyString).

End PyStr.

(** ** Python values, errors and results *)

(** A file-like object given as [stream]: what [repr] shows of it, whether it
    has an [isatty] attribute and what [isatty()] answers, and the column
    count the terminal reports through [TIOCGWINSZ]. *)
Record Stream := {
  stream_repr : string;
  has_isatty : bool;
  isatty : bool;
  ws_col : Z;
}.

(** The values a caller can put in [**options]. *)
Inductive PyVal :=
| VNone
| VBool (b : bool)
| VInt (n : Z)
| VStr (s : string)
| VFile (f : Stream)
| VObj (obj_type : string) (obj_repr : string) (obj_truth : bool).

(** [bool(v)] *)
Definition truthy (v : PyVal) : bool :=
  match v with
  | VNone => false
  | VBool b => b
  | VInt n => negb (n =? 0)
  | VStr s => negb (String.eqb s EmptyString)
  | VFile _ => true
  | VObj _ _ t => t
  end.

(** [type(v).__name__] *)
Definition py_type (v : PyVal) : string :=
  match v with
  | VNone => "NoneType"
  | VBool _ => "bool"
  | VInt _ => "int"
  | VStr _ => "str"
  | VFile _ => "file"
  | VObj t _ _ => t
  end.

(** [v is None] *)
Definition is_None (v : PyVal) : bool :=
  match v with VNone => true | _ => false end.

(** [repr(v)] *)
Definition py_repr (v : PyVal) : string :=
  match v with
  | VNone => "None"
  | VBool true => "True"
  | VBool false => "False"
  | VInt n => PyStr.of_int n
  | VStr s => PyStr.repr s
  | VFile f => stream_repr f
  | VObj _ r _ => r
  end.

(** [i < v] for an [int] [i], with CPython 2's default ordering of mixed
    types: [None] sorts before every number and every number before any other
    object; [bool] is a number. *)
Definition int_lt (i : Z) (v : PyVal) : bool :=
  match v with
  | VNone => false
  | VBool b => i <? Z.b2z b
  | VInt n => i <? n
  | VStr _ | VFile _ | VObj _ _ _ => true
  end.

(** [i >= v] *)
Definition int_ge (i : Z) (v : PyVal) : bool := negb (int_lt i v).

(** [repr(d)] of a [dict] with [str] keys; the order of the items is the
    dictionary's own. *)
Definition repr_item (kv : string * PyVal) : string :=
  PyStr.repr kv.1 +:+ ": " +:+ py_repr kv.2.

Definition repr_dict (d : gmap string PyVal) : string :=
  "{" +:+ PyStr.join ", " (repr_item <$> map_to_list d) +:+ "}".

(** The exceptions that leave the module: the two it raises itself, the
    [TypeError] of [inspect.getframeinfo], the [AttributeError] of a stream
    without [write], and what escapes from [pygments.highlight]. *)
Inductive PyError :=
| TypeError (msg : string)
| RuntimeError (msg : string)
| AttributeError (msg : string)
| PygmentsError (exc : string).

Inductive Result (A : Type) :=
| Ok (a : A)
| Raise (e : PyError).
Arguments Ok {A} a.
Arguments Raise {A} e.

(** [inspect.getframeinfo(tb, context)] computes [context // 2] whenever
    [context > 0], which is so for every value that is no number, and that
    division raises for such a value; for a number it returns, an unreadable
    source file included. *)
Definition getframeinfo_error (context : PyVal) : option PyError :=
  match context with
  | VNone | VBool _ | VInt _ => None
  | v =>
      Some (TypeError ("unsupported operand type(s) for //: '"
                       +:+ py_type v +:+ "' and 'int'"))
  end.

(** ** [XTracebackOptions] *)

Module XTracebackOptions.

(** [_options]: the default of each value option. *)
Definition _options : list (string * PyVal) :=
  [ ("stream", VNone); ("color", VNone); ("print_width", VNone);
    ("offset", VInt 0); ("limit", VNone); ("context", VInt 5);
    ("globals_module_include", VNone) ].

(** [_flags]: the default of each flag. *)
Definition _flags : list (string * bool) :=
  [ ("show_args", true); ("show_locals", true); ("show_globals", false);
    ("qualify_methods", true); ("shorten_filenames", true) ].

(** The attributes [__init__] sets. *)
Record t := {
  stream : PyVal;
  color : PyVal;
  print_width : PyVal;
  offset : PyVal;
  limit : PyVal;
  context : PyVal;
  globals_module_include : PyVal;
  show_args : bool;
  show_locals : bool;
  show_globals : bool;
  qualify_methods : bool;
  shorten_filenames : bool;
}.

(** [value = options.pop(key, None); if value is None: value = default] *)
Definition option_value (options : gmap string PyVal) (key : string)
    (default : PyVal) : PyVal :=
  match options !! key with
  | Some v => if is_None v then default else v
  | None => default
  end.

(** The same for a flag, coerced with [bool]. *)
Definition flag_value (options : gmap string PyVal) (key : string)
    (default : bool) : bool :=
  match options !! key with
  | Some v => if is_None v then default else truthy v
  | None => default
  end.

(** The keys the two loops pop. *)
Definition recognized : list string := (fst <$> _options) ++ (fst <$> _flags).

(** What is left of the dictionary after the two loops. *)
Definition leftover (options : gmap string PyVal) : gmap string PyVal :=
  foldr delete options recognized.

Definition unsupported (rest : gmap string PyVal) : PyError :=
  TypeError ("Unsupported options: " +:+ repr_dict rest).

(** [XTracebackOptions.__init__] *)
Definition __init__ (options : gmap string PyVal) : Result t :=
  let self :=
    {| stream := option_value options "stream" VNone;
       color := option_value options "color" VNone;
       print_width := option_value options "print_width" VNone;
       offset := option_value options "offset" (VInt 0);
       limit := option_value options "limit" VNone;
       context := option_value options "context" (VInt 5);
       globals_module_include :=
         option_value options "globals_module_include" VNone;
       show_args := flag_value options "show_args" true;
       show_locals := flag_value options "show_locals" true;
       show_globals := flag_value options "show_globals" false;
       qualify_methods := flag_value options "qualify_methods" true;
       shorten_filenames := flag_value options "shorten_filenames" true |} in
  let rest := leftover options in
  if decide (size rest = 0%nat) then Ok self else Raise (unsupported rest).

End XTracebackOptions.


(** ** Collaborators

    The frame provider ([xtracebackframe.XTracebackFrame]), [pygments],
    [pprint], [os.path] and [fcntl] live outside this module; the formatter
    is parametrised by them. *)

(** What the formatter uses of an [XTracebackFrame]: the exclusion flag and
    the text [str(frame)] yields, which may depend on the padding width the
    formatter settled on. *)
Record XTracebackFrame := {
  exclude : bool;
  frame_str : Z -> string;
}.

(** A frame object of the interpreter. *)
Record Frame := {
  f_name : string;
  f_filename : string;
  f_locals : list (string * PyVal);
  f_globals : list (string * PyVal);
}.

(** One entry of the chain [tb], [tb.tb_next], ...; the chain is a list and
    [None] its end. *)
Record Traceback := {
  tb_frame : Frame;
  tb_lineno : Z;
}.

(** [TerminalFormatter()]: a formatter, or [ClassNotFound] with its text. *)
Inductive FormatterResult :=
| FormatterOk
| ClassNotFound (exc : string).

(** [pygments.highlight(string, lexer, formatter)]: the colored text, a
    [KeyboardInterrupt], or any other exception, with its text. *)
Inductive HighlightResult :=
| Highlighted (colored : string)
| Interrupted
| Failed (exc : string).

(** [pygments], when it could be imported. *)
Record Pygments := {
  TerminalFormatter : FormatterResult;
  highlight : string -> HighlightResult;
}.

Record Runtime := {
  (** [fcntl is not None] *)
  fcntl : bool;
  pygments : option Pygments;
  (** [os.path.realpath] *)
  realpath : string -> string;
  (** [os.path.relpath], when [os.path] has it *)
  relpath : option (string -> string);
  (** [XTraceback._stdlib_path] *)
  _stdlib_path : string;
  (** [XTracebackFrame(xtb, frame, frame_info, tb_index)].  The class is
      not part of this module; of the object [xtb] it is handed while that
      is under construction, it is taken to read the options, and of
      [frame_info] the line number [frame_info[1]]. *)
  new_frame : XTracebackOptions.t -> Frame -> Z -> Z -> XTracebackFrame;
}.

(** The type of a value shown in a frame. *)
Inductive PyType :=
| TDict | TList | TTuple | TSet | TFrozenset | TStr | TUnicode
| TOther (name : string).

(** [t.__name__] *)
Definition type_name (t : PyType) : string :=
  match t with
  | TDict => "dict" | TList => "list" | TTuple => "tuple" | TSet => "set"
  | TFrozenset => "frozenset" | TStr => "str" | TUnicode => "unicode"
  | TOther n => n
  end.

(** A value shown in a frame: a [str] or [unicode] with its characters, or
    another object with its exact type and what [pprint.pformat(value,
    indent=0)] returns for it, [None] when that raises. *)
Inductive Obj :=
| OStr (is_unicode : bool) (s : string)
| OObj (ty : PyType) (pformat_result : option string).

(** [type(value)] *)
Definition type_of (v : Obj) : PyType :=
  match v with
  | OStr false _ => TStr
  | OStr true _ => TUnicode
  | OObj ty _ => ty
  end.

(** [pprint.pformat(value, indent=0)]: the [repr] of a string. *)
Definition pformat (v : Obj) : option string :=
  match v with
  | OStr false s => Some (PyStr.repr s)
  | OStr true s => Some ("u" +:+ PyStr.repr s)
  | OObj _ r => r
  end.

(** The exception type handed to the formatter: a class, or any other
    object. *)
Record EType := {
  is_type : bool;
  __name__ : string;
  etype_str : string;
}.

(** The arguments of a [SyntaxError] when they unpack as
    [msg, (filename, lineno, offset, badline)]. *)
Record SyntaxArgs := {
  msg : string;
  filename : option string;
  lineno : Z;
  offset : option Z;
  badline : option string;
}.

(** An exception instance: [str(value)] and the [unicode] fall-back, each
    [None] when it raises; its type's name; and, for a [SyntaxError], its
    arguments, [None] when they do not unpack. *)
Record Exc := {
  exc_str : option string;
  exc_unicode : option string;
  exc_type_name : string;
  exc_syntax : option (option SyntaxArgs);
}.

(** ** The world outside the object: warnings issued and text written to the
    configured stream. *)
Record World := {
  warned : list string;
  written : list string;
}.

Definition world0 : World := {| warned := []; written := [] |}.

(** ** [XTraceback] *)

Record XTraceback := {
  etype : EType;
  value : option Exc;
  options : XTracebackOptions.t;
  _lexer : option unit;
  _formatter : option unit;
  tb_frames : list XTracebackFrame;
  number_padding : Z;
  (** [repr(self)] *)
  self_repr : string;
}.

(** Methods run on the object and the world, and return or raise. *)
Definition St : Type := XTraceback * World.
Definition M (A : Type) : Type := St -> Result A * St.

Definition ret {A} (a : A) : M A := fun st => (Ok a, st).
Definition raise {A} (e : PyError) : M A := fun st => (Raise e, st).
Definition bind {A B} (m : M A) (k : A -> M B) : M B :=
  fun st =>
    match m st with
    | (Ok a, st') => k a st'
    | (Raise e, st') => (Raise e, st')
    end.

Notation "x <- m ;; k" := (bind m (fun x => k))
  (at level 100, m at next level, right associativity).

(** [map(f, l)] for a method [f] *)
Fixpoint mapM {A B} (f : A -> M B) (l : list A) : M (list B) :=
  match l with
  | [] => ret []
  | x :: xs => y <- f x ;; ys <- mapM f xs ;; ret (y :: ys)
  end.

(** [warnings.warn(text)] *)
Definition warn (text : string) : M unit :=
  fun '(self, w) =>
    (Ok tt, (self, {| warned := warned w ++ [text]; written := written w |})).

(** [stream.write(text)] *)
Definition write (text : string) : M unit :=
  fun '(self, w) =>
    (Ok tt, (self, {| warned := warned w; written := written w ++ [text] |})).

Definition newline : string := String PyStr.nl EmptyString.

(** ** [posixpath] on a file system without symbolic links

    The formatter takes [os.path.realpath] and [os.path.relpath] from the
    runtime.  This is the standard library's own algorithm for them, for a
    current directory [cwd] and a file system with no symbolic link, where
    [realpath] is [abspath]; it instantiates the runtime in the examples. *)

Module PosixPath.

Definition nonempty (s : string) : bool := negb (String.eqb s EmptyString).

(** [join(a, b)] *)
Definition join (a b : string) : string :=
  if PyStr.startswith "/" b then b
  else if String.eqb a EmptyString then b
  else if String.eqb (PyStr.drop (String.length a - 1)%nat a) "/" then a +:+ b
  else a +:+ "/" +:+ b.

(** The loop of [normpath] over the components, [new_comps] kept with its
    last component first. *)
Fixpoint norm_comps (initial_slashes : bool) (comps new_comps : list string)
    : list string :=
  match comps with
  | [] => new_comps
  | comp :: rest =>
      if String.eqb comp EmptyString || String.eqb comp "." then
        norm_comps initial_slashes rest new_comps
      else if negb (String.eqb comp "..") then
        norm_comps initial_slashes rest (comp :: new_comps)
      else
        match new_comps with
        | [] =>
            if initial_slashes then norm_comps initial_slashes rest new_comps
            else norm_comps initial_slashes rest (comp :: new_comps)
        | last :: before =>
            if String.eqb last ".."
            then norm_comps initial_slashes rest (comp :: new_comps)
            else norm_comps initial_slashes rest before
        end
  end.

(** [normpath(path)] *)
Definition normpath (path : string) : string :=
  if String.eqb path EmptyString then "."
  else
    let initial_slashes : nat :=
      if PyStr.startswith "/" path then
        if PyStr.startswith "//" path && negb (PyStr.startswith "///" path)
        then 2%nat else 1%nat
      else 0%nat in
    let comps :=
      rev (norm_comps (negb (Nat.eqb initial_slashes 0))
                      (PyStr.split_on "/" path) []) in
    let path := PyStr.repeat_char "/" initial_slashes +:+ PyStr.join "/" comps in
    if String.eqb path EmptyString then "." else path.

(** [abspath(path)] *)
Definition abspath (cwd path : string) : string :=
  normpath (if PyStr.startswith "/" path then path else join cwd path).

(** [realpath(path)], there being no link to resolve: the components are
    joined from the root for an absolute path, which leaves one slash in
    front however many the path has, and the result is made absolute. *)
Definition realpath (cwd path : string) : string :=
  abspath cwd
    (if PyStr.startswith "/" path then "/" +:+ PyStr.lstrip_chars "/" path
     else path).

Fixpoint common_prefix_length (a b : list string) : nat :=
  match a, b with
  | x :: a', y :: b' =>
      if String.eqb x y then S (common_prefix_length a' b') else O
  | _, _ => O
  end.

(** [relpath(path)], for a non-empty [path] *)
Definition relpath (cwd path : string) : string :=
  let start_list :=
    List.filter nonempty (PyStr.split_on "/" (abspath cwd ".")) in
  let path_list :=
    List.filter nonempty (PyStr.split_on "/" (abspath cwd path)) in
  let i := common_prefix_length start_list path_list in
  let rel_list := repeat ".." (length start_list - i)%nat ++ skipn i path_list in
  match rel_list with
  | [] => "."
  | first :: others => fold_left join others first
  end.

End PosixPath.

Section Engine.

Variable rt : Runtime.

Definition DEFAULT_WIDTH : Z := 80.

(** [REFORMAT.get(vtype)] *)
Definition REFORMAT (vtype : PyType) : option (string * string) :=
  match vtype with
  | TDict => Some ("{", "}")
  | TList => Some ("[", "]")
  | TTuple => Some ("(", ")")
  | TSet => Some ("set([", "])")
  | TFrozenset => Some ("frozenset([", "])")
  | _ => None
  end.

(** The frames the loop of [__init__] has kept, the padding so far, and the
    frames it has built, kept or not, in the order it built them, each with
    the line number [frame_info[1]] it was built from. *)
Record Scan := {
  scan_frames : list XTracebackFrame;
  scan_padding : Z;
  examined : list (Z * XTracebackFrame);
}.

Definition scan0 : Scan :=
  {| scan_frames := []; scan_padding := 0; examined := [] |}.

(** The body of [if i >= self.options.offset:], where
    [inspect.getframeinfo(tb, self.options.context)] returns: [frame_info[1]]
    is the line number of the entry.  Where it raises, at the first entry the
    loop examines, the construction ends: [__init__] below has that case. *)
Definition examine (opts : XTracebackOptions.t) (tb : Traceback) (i : Z)
    (acc : Scan) : Scan :=
  let frame_info_1 := tb_lineno tb in
  let frame := new_frame rt opts (tb_frame tb) frame_info_1 i in
  if negb (exclude frame) then
    {| scan_frames := scan_frames acc ++ [frame];
       scan_padding := Z.max (PyStr.len (PyStr.of_int frame_info_1))
                             (scan_padding acc);
       examined := examined acc ++ [(frame_info_1, frame)] |}
  else
    {| scan_frames := scan_frames acc;
       scan_padding := scan_padding acc;
       examined := examined acc ++ [(frame_info_1, frame)] |}.

(** The [while] loop of [__init__], for a context [getframeinfo] accepts. *)
Fixpoint scan (opts : XTracebackOptions.t) (tb : list Traceback) (i : Z)
    (acc : Scan) : Scan :=
  match tb with
  | [] => acc
  | t :: tb_next =>
      if is_None (XTracebackOptions.limit opts)
         || int_lt i (XTracebackOptions.limit opts)
      then
        let acc' :=
          if int_ge i (XTracebackOptions.offset opts)
          then examine opts t i acc else acc in
        scan opts tb_next (i + 1) acc'
      else acc
  end.

(** [XTraceback.__init__]: the options, then the loop, which raises what
    [getframeinfo] raises as soon as it examines an entry. *)
Definition __init__ (etype : EType) (value : option Exc)
    (tb : list Traceback) (opts : gmap string PyVal) (repr_self : string)
    : Result XTraceback :=
  match XTracebackOptions.__init__ opts with
  | Raise e => Raise e
  | Ok o =>
      let r := scan o tb 0 scan0 in
      match examined r, getframeinfo_error (XTracebackOptions.context o) with
      | _ :: _, Some e => Raise e
      | _, _ =>
          Ok {| etype := etype; value := value; options := o;
                _lexer := None; _formatter := None;
                tb_frames := scan_frames r; number_padding := scan_padding r;
                self_repr := repr_self |}
      end
  end.

(** [tty_stream] *)
Definition tty_stream (self : XTraceback) : bool :=
  match XTracebackOptions.stream (options self) with
  | VFile f => has_isatty f && isatty f
  | _ => false
  end.

(** [color] *)
Definition color (self : XTraceback) : PyVal :=
  if is_None (XTracebackOptions.color (options self))
  then VBool (tty_stream self)
  else XTracebackOptions.color (options self).

(** [print_width]; the [ioctl] answers with the column count of the
    stream. *)
Definition print_width (self : XTraceback) : Z :=
  if is_None (XTracebackOptions.print_width (options self))
     && fcntl rt && tty_stream self
  then match XTracebackOptions.stream (options self) with
       | VFile f => ws_col f
       | _ => DEFAULT_WIDTH
       end
  else DEFAULT_WIDTH.

(** [_format_filename] *)
Definition _format_filename (self : XTraceback) (filename : string) : string :=
  if XTracebackOptions.shorten_filenames (options self) then
    let filename := realpath rt filename in
    if PyStr.startswith (_stdlib_path rt) filename then
      PyStr.replace (_stdlib_path rt) "<stdlib>" filename
    else
      match relpath rt with
      | Some os_path_relpath =>
          let relative := os_path_relpath filename in
          if PyStr.len relative <? PyStr.len filename then relative
          else filename
      | None => filename
      end
  else filename.

(** The truncation of [_format_variable]: a string longer than twice the
    print width is cut and gets an ellipsis. *)
Definition truncate (self : XTraceback) (base_size : Z) (value : Obj) : Obj :=
  match value with
  | OStr u s =>
      if PyStr.len s >? print_width self * 2
      then OStr u (PyStr.slice_to s (print_width self - base_size - 2 - 3)
                   +:+ "...")
      else value
  | _ => value
  end.

(** [try: pvalue = pprint.pformat(value, indent=0)] and its [except] *)
Definition rendering (value : Obj) : string :=
  match pformat value with
  | Some p => p
  | None => "<unprintable " +:+ type_name (type_of value) +:+ " object>"
  end.

(** The value [_format_variable] renders, as it is written after the
    separator. *)
Definition format_value (self : XTraceback) (base_size indent : Z)
    (value : Obj) : string :=
  let vtype := type_of value in
  let pvalue := rendering value in
  if base_size + PyStr.len pvalue >? print_width self then
    match REFORMAT vtype with
    | Some (start, end_) =>
        let lines :=
          PyStr.strip <$>
            PyStr.splitlines
              (PyStr.rstrip_chars end_ (PyStr.lstrip_chars start pvalue)) in
        let sub_indent := newline +:+ PyStr.spaces (indent + 4) in
        PyStr.join EmptyString
          [start; sub_indent; PyStr.join sub_indent lines; ","; sub_indent;
           end_]
    | None => pvalue
    end
  else pvalue.

(** [_format_variable] *)
Definition _format_variable (self : XTraceback) (key : string) (value : Obj)
    (indent : Z) (prefix separator : string) : string :=
  let base_size :=
    indent + PyStr.len prefix + PyStr.len key + PyStr.len separator in
  let value := truncate self base_size value in
  let pvalue := format_value self base_size indent value in
  PyStr.join EmptyString [PyStr.spaces indent; prefix; key; separator; pvalue].

(** *** Line formatting *)

Definition get_self : M XTraceback := fun st => (Ok st.1, st).

Definition set_lexer : M unit :=
  fun '(self, w) =>
    (Ok tt,
     ({| etype := etype self; value := value self; options := options self;
         _lexer := Some tt; _formatter := _formatter self;
         tb_frames := tb_frames self; number_padding := number_padding self;
         self_repr := self_repr self |}, w)).

Definition set_formatter : M unit :=
  fun '(self, w) =>
    (Ok tt,
     ({| etype := etype self; value := value self; options := options self;
         _lexer := _lexer self; _formatter := Some tt;
         tb_frames := tb_frames self; number_padding := number_padding self;
         self_repr := self_repr self |}, w)).

(** [try: return pygments.highlight(...)  except KeyboardInterrupt: pass],
    then [return string] *)
Definition try_highlight (pyg : Pygments) (text : string) : M string :=
  match highlight pyg text with
  | Highlighted colored => ret colored
  | Interrupted => ret text
  | Failed exc => raise (PygmentsError exc)
  end.

(** [_highlight] *)
Definition _highlight (text : string) : M string :=
  match pygments rt with
  | None =>
      _ <- warn "highlighting not available - pygments is required" ;;
      ret text
  | Some pyg =>
      self <- get_self ;;
      _ <- match _lexer self with Some _ => ret tt | None => set_lexer end ;;
      self <- get_self ;;
      match _formatter self with
      | Some _ => try_highlight pyg text
      | None =>
          match TerminalFormatter pyg with
          | FormatterOk => _ <- set_formatter ;; try_highlight pyg text
          | ClassNotFound exc =>
              _ <- warn ("highlighting not available - " +:+ exc) ;;
              ret text
          end
      end
  end.

(** [_str_lines] *)
Definition _str_lines (lines : list string) : M string :=
  let exc_str := PyStr.join EmptyString lines in
  self <- get_self ;;
  if truthy (color self) then _highlight exc_str else ret exc_str.

(** [_format_lines] *)
Definition _format_lines (lines : list string) : M (list string) :=
  self <- get_self ;;
  if truthy (color self) then mapM _highlight lines else ret lines.

(** [_print_lines]; only a file object has [write]. *)
Definition _print_lines (lines : list string) : M unit :=
  self <- get_self ;;
  match XTracebackOptions.stream (options self) with
  | VNone =>
      raise (RuntimeError
               ("Cannot print - " +:+ self_repr self +:+ " has None stream"))
  | VFile _ => text <- _str_lines lines ;; write text
  | v =>
      raise (AttributeError
               ("'" +:+ py_type v +:+ "' object has no attribute 'write'"))
  end.

(** *** Traceback format *)

(** [_format_tb] *)
Definition _format_tb (self : XTraceback) : list string :=
  (fun frame => frame_str frame (number_padding self) +:+ newline)
    <$> tb_frames self.

Fixpoint map_chars (f : ascii -> ascii) (s : string) : string :=
  match s with
  | EmptyString => EmptyString
  | String c s' => String (f c) (map_chars f s')
  end.

(** [x or "<string>"] *)
Definition or_string (x : string) : string :=
  if String.eqb x EmptyString then "<string>" else x.

(** The lines of a [SyntaxError] whose arguments unpacked, and the message
    that replaces [value_str] when there is an offending line. *)
Definition syntax_lines (self : XTraceback) (a : SyntaxArgs)
    (value_str : string) : list string * string :=
  let filename :=
    match filename a with
    | Some f => if String.eqb f EmptyString then "<string>"
                else or_string (_format_filename self f)
    | None => "<string>"
    end in
  let filename := or_string filename in
  let file_line :=
    "  File " +:+ String PyStr.dquote filename
      +:+ String PyStr.dquote (", line " +:+ PyStr.of_int (lineno a))
      +:+ newline in
  match badline a with
  | None => ([file_line], value_str)
  | Some badline =>
      let bad := "    " +:+ PyStr.strip badline +:+ newline in
      match offset a with
      | None => ([file_line; bad], msg a)
      | Some offset =>
          let caretspace :=
            PyStr.lstrip
              (PyStr.slice_to (PyStr.rstrip_chars newline badline) offset) in
          let caretspace :=
            map_chars (fun c => if PyStr.isspace c then c else " "%char)
                      caretspace in
          ([file_line; bad; "   " +:+ caretspace +:+ "^" +:+ newline], msg a)
      end
  end.

(** [_format_exception_only] *)
Definition _format_exception_only (self : XTraceback) : list string :=
  let value_str :=
    match value self with
    | None => "None"
    | Some e =>
        match exc_str e with
        | Some s => s
        | None =>
            match exc_unicode e with
            | Some s => s
            | None => "<unprintable " +:+ exc_type_name e +:+ " object>"
            end
        end
    end in
  let '(lines, value_str) :=
    match value self with
    | Some {| exc_syntax := Some (Some a) |} => syntax_lines self a value_str
    | _ => ([], value_str)
    end in
  let exc_line :=
    if is_type (etype self) && negb (String.eqb (__name__ (etype self)) EmptyString)
    then __name__ (etype self) else etype_str (etype self) in
  let exc_line :=
    match value self with
    | Some _ =>
        if negb (String.eqb value_str EmptyString)
        then exc_line +:+ ": " +:+ value_str else exc_line
    | None => exc_line
    end in
  lines ++ [exc_line +:+ newline].

Definition header : string :=
  "Traceback (most recent call last):" +:+ newline.

(** [_format_exception] *)
Definition _format_exception (self : XTraceback) : list string :=
  let lines := _format_tb self in
  let lines :=
    match lines with
    | [] => lines
    | _ => header :: lines
    end in
  lines ++ _format_exception_only self.

(** *** Interface *)

Definition format_tb : M (list string) :=
  self <- get_self ;; _format_lines (_format_tb self).

Definition format_exception_only : M (list string) :=
  self <- get_self ;; _format_lines (_format_exception_only self).

Definition format_exception : M (list string) :=
  self <- get_self ;; _format_lines (_format_exception self).

Definition print_tb : M unit :=
  self <- get_self ;; _print_lines (_format_tb self).

Definition print_exception : M unit :=
  self <- get_self ;; _print_lines (_format_exception self).

(** [__str__] *)
Definition __str__ : M string :=
  self <- get_self ;; _str_lines (_format_exception self).

End Engine.

(** ** An instance of the collaborators, for the examples *)

Module Sample.

(** A provider that leaves out the frames whose locals bind
    [__xtraceback_skip_frame__] to a true value and renders a frame as its
    location, the line number padded to the width. *)
Definition skips (f : Frame) : bool :=
  existsb (fun kv => String.eqb kv.1 "__xtraceback_skip_frame__" && truthy kv.2)
          (f_locals f).

Definition make_frame (opts : XTracebackOptions.t) (f : Frame) (lineno i : Z)
    : XTracebackFrame :=
  {| exclude := skips f;
     frame_str := fun padding =>
       let number := PyStr.of_int lineno in
       "  File " +:+ f_filename f +:+ ", line "
         +:+ PyStr.spaces (padding - PyStr.len number) +:+ number
         +:+ ", in " +:+ f_name f |}.

(** A runtime on a link-free POSIX file system. *)
Definition runtime (cwd stdlib : string) (pyg : option Pygments) : Runtime :=
  {| fcntl := true;
     pygments := pyg;
     realpath := PosixPath.realpath cwd;
     relpath := Some (PosixPath.relpath cwd);
     _stdlib_path := stdlib;
     new_frame := make_frame |}.

Definition rt : Runtime := runtime "/home/u/proj" "/usr/lib/python2.7" None.

Definition frame (name : string) (skip : bool) : Frame :=
  {| f_name := name; f_filename := "/home/u/proj/app.py";
     f_locals := [("__xtraceback_skip_frame__", VBool skip)];
     f_globals := [] |}.

(** A chain of five entries, the third one to be left out. *)
Definition tb5 : list Traceback :=
  [ {| tb_frame := frame "main" false; tb_lineno := 7 |};
    {| tb_frame := frame "run" false; tb_lineno := 1203 |};
    {| tb_frame := frame "wrap" true; tb_lineno := 100000 |};
    {| tb_frame := frame "step" false; tb_lineno := 42 |};
    {| tb_frame := frame "fail" false; tb_lineno := 9 |} ].

Definition ValueError : EType :=
  {| is_type := true; __name__ := "ValueError";
     etype_str := "<type 'exceptions.ValueError'>" |}.

Definition bad_input : Exc :=
  {| exc_str := Some "bad input"; exc_unicode := Some "bad input";
     exc_type_name := "ValueError"; exc_syntax := None |}.

Definition stderr : Stream :=
  {| stream_repr := "<open file '<stderr>', mode 'w'>";
     has_isatty := true; isatty := false; ws_col := 0 |}.

(** The options of an empty bag. *)
Definition defaults : XTracebackOptions.t :=
  {| XTracebackOptions.stream := VNone; XTracebackOptions.color := VNone;
     XTracebackOptions.print_width := VNone;
     XTracebackOptions.offset := VInt 0; XTracebackOptions.limit := VNone;
     XTracebackOptions.context := VInt 5;
     XTracebackOptions.globals_module_include := VNone;
     XTracebackOptions.show_args := true;
     XTracebackOptions.show_locals := true;
     XTracebackOptions.show_globals := false;
     XTracebackOptions.qualify_methods := true;
     XTracebackOptions.shorten_filenames := true |}.

(** The object [__init__] builds once the options are read. *)
Definition construct (r : Runtime) (opts : XTracebackOptions.t) (ety : EType)
    (val : option Exc) (tb : list Traceback) : XTraceback :=
  {| etype := ety; value := val; options := opts;
     _lexer := None; _formatter := None;
     tb_frames := scan_frames (scan r opts tb 0 scan0);
     number_padding := scan_padding (scan r opts tb 0 scan0);
     self_repr := "<XTraceback>" |}.

(** [XTraceback(ValueError, ValueError("bad input"), tb5)] *)
Definition xtb : XTraceback :=
  construct rt defaults ValueError (Some bad_input) tb5.

(** The same exception with no frame. *)
Definition xtb_bare : XTraceback :=
  construct rt defaults ValueError (Some bad_input) [].

(** An exception type that is no class and whose text is the header. *)
Definition header_etype : EType :=
  {| is_type := false; __name__ := EmptyString;
     etype_str := "Traceback (most recent call last):" |}.

Definition xtb_header : XTraceback := construct rt defaults header_etype None [].

(** A runtime whose current directory lies under the standard library's
    root, as a project kept in [site-packages] has it. *)
Definition rt_site : Runtime :=
  runtime "/usr/lib/python2.7/site-packages/proj" "/usr/lib/python2.7" None.

(** A list of two names as [pprint] lays it out over two lines. *)
Definition two_names : Obj :=
  OObj TList
    (Some ("['" +:+ PyStr.repeat_char "a" 40 +:+ "'," +:+ newline
           +:+ " '" +:+ PyStr.repeat_char "b" 40 +:+ "']")).

(** A bag of recognized keys, and one with two keys that are not. *)
Definition bag_ok : gmap string PyVal :=
  <["limit" := VInt 3]> (<["show_globals" := VInt 1]> ∅).

Definition bag_bad : gmap string PyVal :=
  <["limit" := VInt 3]> (<["colour" := VBool true]> (<["wdth" := VInt 3]> ∅)).

(** A bag that asks for 120 columns. *)
Definition bag_wide : gmap string PyVal := <["print_width" := VInt 120]> ∅.

Definition options_wide : XTracebackOptions.t :=
  {| XTracebackOptions.stream := VNone; XTracebackOptions.color := VNone;
     XTracebackOptions.print_width := VInt 120;
     XTracebackOptions.offset := VInt 0; XTracebackOptions.limit := VNone;
     XTracebackOptions.context := VInt 5;
     XTracebackOptions.globals_module_include := VNone;
     XTracebackOptions.show_args := true;
     XTracebackOptions.show_locals := true;
     XTracebackOptions.show_globals := false;
     XTracebackOptions.qualify_methods := true;
     XTracebackOptions.shorten_filenames := true |}.

Definition xtb_wide : XTraceback :=
  construct rt options_wide ValueError (Some bad_input) tb5.

(** A short list. *)
Definition short_list : Obj := OObj TList (Some "[1, 2, 3]").


(** A [pygments] that colors by bracketing the text. *)
Definition brackets : Pygments :=
  {| TerminalFormatter := FormatterOk;
     highlight := fun text => Highlighted ("<" +:+ text +:+ ">") |}.

(** A [pygments] whose formatter is not found. *)
Definition no_formatter : Pygments :=
  {| TerminalFormatter := ClassNotFound "no terminal";
     highlight := fun text => Highlighted text |}.

Definition rt_brackets : Runtime :=
  runtime "/home/u/proj" "/usr/lib/python2.7" (Some brackets).

Definition rt_no_formatter : Runtime :=
  runtime "/home/u/proj" "/usr/lib/python2.7" (Some no_formatter).

(** The sample object printing to [stderr], without color. *)
Definition options_stderr : XTracebackOptions.t :=
  {| XTracebackOptions.stream := VFile stderr;
     XTracebackOptions.color := VBool false;
     XTracebackOptions.print_width := VNone;
     XTracebackOptions.offset := VInt 0; XTracebackOptions.limit := VNone;
     XTracebackOptions.context := VInt 5;
     XTracebackOptions.globals_module_include := VNone;
     XTracebackOptions.show_args := true;
     XTracebackOptions.show_locals := true;
     XTracebackOptions.show_globals := false;
     XTracebackOptions.qualify_methods := true;
     XTracebackOptions.shorten_filenames := true |}.

Definition xtb_stderr : XTraceback :=
  construct rt options_stderr ValueError (Some bad_input) tb5.

(** A name of 80 characters and a string of 200. *)
Definition long_key : string := PyStr.repeat_char "k" 80.
Definition long_value : Obj := OStr false (PyStr.repeat_char "x" 200).

(** [offset=1, limit=4] and the defaults: of the five entries of [tb5] the
    second, third and fourth are examined, and the third is left out. *)
Definition options_1_4 : XTracebackOptions.t :=
  {| XTracebackOptions.stream := VNone; XTracebackOptions.color := VNone;
     XTracebackOptions.print_width := VNone;
     XTracebackOptions.offset := VInt 1; XTracebackOptions.limit := VInt 4;
     XTracebackOptions.context := VInt 5;
     XTracebackOptions.globals_module_include := VNone;
     XTracebackOptions.show_args := true;
     XTracebackOptions.show_locals := true;
     XTracebackOptions.show_globals := false;
     XTracebackOptions.qualify_methods := true;
     XTracebackOptions.shorten_filenames := true |}.

Definition xtb_1_4 : XTraceback :=
  construct rt options_1_4 ValueError (Some bad_input) tb5.

(** [offset=2, limit=2] and the defaults, as [XTracebackOptions] sets them. *)
Definition options_2_2 : XTracebackOptions.t :=
  {| XTracebackOptions.stream := VNone; XTracebackOptions.color := VNone;
     XTracebackOptions.print_width := VNone;
     XTracebackOptions.offset := VInt 2; XTracebackOptions.limit := VInt 2;
     XTracebackOptions.context := VInt 5;
     XTracebackOptions.globals_module_include := VNone;
     XTracebackOptions.show_args := true;
     XTracebackOptions.show_locals := true;
     XTracebackOptions.show_globals := false;
     XTracebackOptions.qualify_methods := true;
     XTracebackOptions.shorten_filenames := true |}.

End Sample.

(** ** Notions used in the statements *)

(** An examined frame the provider does not exclude. *)
Definition included (e : Z * XTracebackFrame) : bool := negb (exclude e.2).

(** [len(str(n))]: the width of a line number. *)
Definition digit_width (n : Z) : Z := PyStr.len (PyStr.of_int n).

(** The largest of a list of widths, 0 for none. *)
Definition widest (l : list Z) : Z := foldr Z.max 0 l.

(** The lines of a re-wrapped value between the opening and the closing
    delimiter: each component behind the padding, a comma after the last. *)
Fixpoint wrapped (pad : string) (lines : list string) : list string :=
  match lines with
  | [] => [pad +:+ ","]
  | [x] => [pad +:+ x +:+ ","]
  | x :: xs => (pad +:+ x) :: wrapped pad xs
  end.

(** The invariant of the loop of [__init__]: what it keeps is determined by
    the included frames among those it examined. *)
Definition kept_ok (acc : Scan) : Prop :=
  scan_frames acc = snd <$> List.filter included (examined acc)
  /\ scan_padding acc
     = widest ((fun e => digit_width e.1) <$> List.filter included (examined acc)).

(** The result is not the [RuntimeError] of a missing stream. *)
Definition no_runtime_error {A : Type} (r : Result A) : Prop :=
  forall msg : string, r <> Raise (RuntimeError msg).

(** The object with its [color] option set to [c]. *)
Definition with_color (c : PyVal) (self : XTraceback) : XTraceback :=
  let o := options self in
  {| etype := etype self; value := value self;
     options :=
       {| XTracebackOptions.stream := XTracebackOptions.stream o;
          XTracebackOptions.color := c;
          XTracebackOptions.print_width := XTracebackOptions.print_width o;
          XTracebackOptions.offset := XTracebackOptions.offset o;
          XTracebackOptions.limit := XTracebackOptions.limit o;
          XTracebackOptions.context := XTracebackOptions.context o;
          XTracebackOptions.globals_module_include :=
            XTracebackOptions.globals_module_include o;
          XTracebackOptions.show_args := XTracebackOptions.show_args o;
          XTracebackOptions.show_locals := XTracebackOptions.show_locals o;
          XTracebackOptions.show_globals := XTracebackOptions.show_globals o;
          XTracebackOptions.qualify_methods :=
            XTracebackOptions.qualify_methods o;
          XTracebackOptions.shorten_filenames :=
            XTracebackOptions.shorten_filenames o |};
     _lexer := _lexer self; _formatter := _formatter self;
     tb_frames := tb_frames self; number_padding := number_padding self;
     self_repr := self_repr self |}.

(** The two tests of the loop of [__init__] at the position [i]: the guard
    of the [while] and the [if] under it. *)
Definition in_window (opts : XTracebackOptions.t) (i : Z) : bool :=
  (is_None (XTracebackOptions.limit opts)
   || int_lt i (XTracebackOptions.limit opts))
  && int_ge i (XTracebackOptions.offset opts).

(** The entries of a chain with their positions, counted from [i]. *)
Fixpoint indexed (tb : list Traceback) (i : Z) : list (Z * Traceback) :=
  match tb with
  | [] => []
  | t :: tb_next => (i, t) :: indexed tb_next (i + 1)
  end.

(** The frame built for the entry at a position, with its line number. *)
Definition build (rt : Runtime) (opts : XTracebackOptions.t)
    (it : Z * Traceback) : Z * XTracebackFrame :=
  (tb_lineno it.2,
   new_frame rt opts (tb_frame it.2) (tb_lineno it.2) it.1).

(** A method that writes nothing to the stream. *)
Definition keeps_written {A : Type} (m : M A) : Prop :=
  forall st : St, written (m st).2.2 = written st.2.


(** The warning of [_highlight] when [pygments] is missing. *)
Definition pygments_required : string :=
  "highlighting not available - pygments is required".

(** How many lines of [l] are [x]. *)
Definition occurrences (x : string) (l : list string) : nat :=
  length (List.filter (String.eqb x) l).

(** [s.endswith(t)] *)
Definition endswith (t s : string) : Prop := exists pre : string, s = pre +:+ t.

(** [t] occurs in [s]. *)
Definition occurs_in (t s : string) : Prop :=
  exists pre post : string, s = pre +:+ t +:+ post.

(** * Properties *)

(** ** The loop of [__init__] *)

Section Scan.

Variable rt : Runtime.
Variable opts : XTracebackOptions.t.

Lemma examine_examined (t : Traceback) (i : Z) (acc : Scan) :
  length (examined (examine rt opts t i acc)) = S (length (examined acc)).
Proof.
  unfold examine. destruct (negb _); simpl; rewrite length_app; simpl; lia.
Qed.

(** With an integer offset [o] and an integer limit [l], the loop started at
    index [i] builds a frame for the indices [j] of the chain with
    [max i o <= j < min l (i + L)]. *)
Lemma scan_examined_from (o l : Z) (tb : list Traceback) :
  XTracebackOptions.offset opts = VInt o ->
  XTracebackOptions.limit opts = VInt l ->
  forall (i : Z) (acc : Scan),
    Z.of_nat (length (examined (scan rt opts tb i acc)))
    = Z.of_nat (length (examined acc))
      + Z.max 0 (Z.min l (i + Z.of_nat (length tb)) - Z.max i o).
Proof.
  intros Ho Hl. induction tb as [|t tb' IH]; intros i acc.
  - simpl. lia.
  - cbn [scan]. rewrite Hl, Ho. unfold int_ge, int_lt. cbn [is_None orb].
    destruct (Z.ltb_spec i l) as [Hlt|Hge].
    + rewrite IH. destruct (Z.ltb_spec i o) as [Hio|Hio]; cbn [negb].
      * cbn [length]. lia.
      * rewrite examine_examined. cbn [length]. lia.
    + cbn [length]. lia.
Qed.

(** With no limit the loop runs to the end of the chain. *)
Lemma scan_examined_unlimited (o : Z) (tb : list Traceback) :
  XTracebackOptions.offset opts = VInt o ->
  XTracebackOptions.limit opts = VNone ->
  forall (i : Z) (acc : Scan),
    Z.of_nat (length (examined (scan rt opts tb i acc)))
    = Z.of_nat (length (examined acc))
      + Z.max 0 (i + Z.of_nat (length tb) - Z.max i o).
Proof.
  intros Ho Hl. induction tb as [|t tb' IH]; intros i acc.
  - simpl. lia.
  - cbn [scan]. rewrite Hl, Ho. unfold int_ge, int_lt. cbn [is_None orb].
    rewrite IH. destruct (Z.ltb_spec i o) as [Hio|Hio]; cbn [negb].
    + cbn [length]. lia.
    + rewrite examine_examined. cbn [length]. lia.
Qed.

End Scan.

Lemma int_lt_closed (i j : Z) (v : PyVal) :
  i <= j -> int_lt i v = false -> int_lt j v = false.
Proof.
  intros Hij. destruct v; cbn [int_lt]; try discriminate; try reflexivity;
    rewrite !Z.ltb_ge; lia.
Qed.

Lemma window_closed (opts : XTracebackOptions.t) (tb : list Traceback) :
  forall i j : Z,
    i <= j ->
    is_None (XTracebackOptions.limit opts)
      || int_lt i (XTracebackOptions.limit opts) = false ->
    List.filter (fun it => in_window opts it.1) (indexed tb j) = [].
Proof.
  induction tb as [|t tb' IH]; intros i j Hij Hout; [reflexivity|].
  cbn [indexed List.filter fst].
  change (in_window opts j)
    with ((is_None (XTracebackOptions.limit opts)
           || int_lt j (XTracebackOptions.limit opts))
          && int_ge j (XTracebackOptions.offset opts)).
  apply orb_false_iff in Hout as [Hnone Hlt].
  rewrite Hnone, (int_lt_closed i j _ Hij Hlt). cbn [orb andb].
  apply (IH i); [lia|]. now rewrite Hnone, Hlt.
Qed.

Lemma examine_examined_snoc (rt : Runtime) (opts : XTracebackOptions.t)
    (t : Traceback) (i : Z) (acc : Scan) :
  examined (examine rt opts t i acc) = examined acc ++ [build rt opts (i, t)].
Proof. unfold examine. destruct (negb _); reflexivity. Qed.

Lemma scan_examined_window_from (rt : Runtime) (opts : XTracebackOptions.t)
    (tb : list Traceback) :
  forall (i : Z) (acc : Scan),
    examined (scan rt opts tb i acc)
    = examined acc
      ++ (build rt opts
            <$> List.filter (fun it => in_window opts it.1) (indexed tb i)).
Proof.
  induction tb as [|t tb' IH]; intros i acc.
  - cbn. now rewrite app_nil_r.
  - cbn [scan indexed List.filter fst].
    change (in_window opts i)
      with ((is_None (XTracebackOptions.limit opts)
             || int_lt i (XTracebackOptions.limit opts))
            && int_ge i (XTracebackOptions.offset opts)).
    destruct (is_None _ || int_lt i _) eqn:Eguard; cbn [andb].
    + rewrite IH. destruct (int_ge i _).
      * rewrite examine_examined_snoc. cbn [fmap list_fmap].
        now rewrite <- app_assoc.
      * reflexivity.
    + rewrite (window_closed opts tb' i (i + 1)); [|lia|exact Eguard].
      cbn. now rewrite app_nil_r.
Qed.

(** C1, as the code has it.  For a chain of [L] raw frames, an integer
    offset [o] and an integer limit [l], the loop examines
    [max 0 (min l L - max 0 o)] raw frames: those at the positions [i],
    counted from 0, with [o <= i < l], in the order of the chain.  The limit
    bounds the position in the chain, so the skipped frames count toward
    it. *)
Theorem examined_count (rt : Runtime) (opts : XTracebackOptions.t)
    (tb : list Traceback) (o l : Z) :
  XTracebackOptions.offset opts = VInt o ->
  XTracebackOptions.limit opts = VInt l ->
  Z.of_nat (length (examined (scan rt opts tb 0 scan0)))
  = Z.max 0 (Z.min l (Z.of_nat (length tb)) - Z.max 0 o)
  /\ examined (scan rt opts tb 0 scan0)
     = build rt opts
         <$> List.filter (fun it => (o <=? it.1) && (it.1 <? l)) (indexed tb 0).
Proof.
  intros Ho Hl. split.
  - rewrite (scan_examined_from rt opts o l tb Ho Hl).
    cbn [scan0 examined length]. lia.
  - rewrite (scan_examined_window_from rt opts tb 0 scan0).
    cbn [scan0 examined app]. f_equal. apply List.filter_ext. intros [i t].
    unfold in_window, int_ge. rewrite Ho, Hl. cbn [is_None orb int_lt fst].
    destruct (Z.ltb_spec i l), (Z.ltb_spec i o), (Z.leb_spec o i);
      cbn [andb negb]; try reflexivity; lia.
Qed.

Lemma examined_count_witness :
  XTracebackOptions.offset Sample.options_1_4 = VInt 1
  /\ XTracebackOptions.limit Sample.options_1_4 = VInt 4
  /\ Z.of_nat (length (examined (scan Sample.rt Sample.options_1_4 Sample.tb5 0
                                      scan0)))
     = Z.max 0 (Z.min 4 (Z.of_nat (length Sample.tb5)) - Z.max 0 1)
  /\ examined (scan Sample.rt Sample.options_1_4 Sample.tb5 0 scan0)
     = build Sample.rt Sample.options_1_4
         <$> List.filter (fun it => (1 <=? it.1) && (it.1 <? 4))
               (indexed Sample.tb5 0).
Proof.
  split; [reflexivity | split; [reflexivity |]].
  apply (examined_count Sample.rt Sample.options_1_4 Sample.tb5 1 4);
    reflexivity.
Defined.

(** Five raw frames, [offset=2] and [limit=2]: [min(l, L-o)] is 2, and the
    loop builds no frame at all, the limit being reached while it skips. *)
Lemma examined_count_counterexample :
  XTracebackOptions.__init__ (<["offset" := VInt 2]> (<["limit" := VInt 2]> ∅))
    = Ok Sample.options_2_2
  /\ Z.of_nat (length (examined (scan Sample.rt Sample.options_2_2 Sample.tb5 0 scan0)))
     <> Z.min 2 (Z.of_nat (length Sample.tb5) - 2).
Proof.
  split; [vm_compute; reflexivity | vm_compute; discriminate].
Qed.

(** ** Excluded frames *)

Lemma widest_snoc (l : list Z) (x : Z) : widest (l ++ [x]) = Z.max x (widest l).
Proof.
  unfold widest. induction l as [|y l IH]; simpl; [lia | rewrite IH; lia].
Qed.

Section Kept.

Variable rt : Runtime.
Variable opts : XTracebackOptions.t.

Lemma kept_ok_scan0 : kept_ok scan0.
Proof. split; reflexivity. Qed.

Lemma kept_ok_examine (t : Traceback) (i : Z) (acc : Scan) :
  kept_ok acc -> kept_ok (examine rt opts t i acc).
Proof.
  intros [Hf Hp]. unfold examine, kept_ok.
  destruct (exclude (new_frame rt opts (tb_frame t) (tb_lineno t) i)) eqn:E;
    cbn [negb scan_frames scan_padding examined];
    rewrite List.filter_app; cbn [List.filter]; unfold included at 2 4;
    cbn [snd]; rewrite E; cbn [negb].
  - rewrite !app_nil_r. split; assumption.
  - rewrite !fmap_app. cbn [fmap list_fmap fst snd]. rewrite widest_snoc.
    rewrite Hf, Hp. split; reflexivity.
Qed.

Lemma kept_ok_scan (tb : list Traceback) :
  forall (i : Z) (acc : Scan), kept_ok acc -> kept_ok (scan rt opts tb i acc).
Proof.
  induction tb as [|t tb' IH]; intros i acc Hacc; cbn [scan]; [assumption|].
  destruct (_ || _); [|assumption].
  apply IH. destruct (int_ge _ _); [apply kept_ok_examine|]; assumption.
Qed.

End Kept.

(** What a successful construction leaves in the object. *)
Lemma init_Ok (rt : Runtime) (ety : EType) (val : option Exc)
    (tb : list Traceback) (bag : gmap string PyVal) (repr_self : string)
    (self : XTraceback) :
  __init__ rt ety val tb bag repr_self = Ok self ->
  XTracebackOptions.__init__ bag = Ok (options self)
  /\ tb_frames self = scan_frames (scan rt (options self) tb 0 scan0)
  /\ number_padding self = scan_padding (scan rt (options self) tb 0 scan0).
Proof.
  unfold __init__.
  destruct (XTracebackOptions.__init__ bag) as [o|e]; [|discriminate].
  destruct (examined (scan rt o tb 0 scan0)) as [|x xs];
    [|destruct (getframeinfo_error (XTracebackOptions.context o));
      [discriminate|]];
    intros [= <-]; repeat split.
Qed.

(** C5.  Of the entries of the chain that the loop examines, those at the
    positions that pass the tests of limit and offset, the object keeps the
    frames the provider does not exclude, in order; the padding width is the
    largest [len(str(n))] over the line numbers [n] of those frames alone, 0
    when there is none; and [_format_tb] renders one block per kept frame
    and nothing else.  An excluded frame enters none of the three. *)
Theorem excluded_frames_leave_no_trace (rt : Runtime) (ety : EType)
    (val : option Exc) (tb : list Traceback) (bag : gmap string PyVal)
    (repr_self : string) (self : XTraceback) :
  __init__ rt ety val tb bag repr_self = Ok self ->
  let examined_frames :=
    build rt (options self)
      <$> List.filter (fun it => in_window (options self) it.1) (indexed tb 0) in
  let seen := List.filter included examined_frames in
  tb_frames self = snd <$> seen
  /\ number_padding self = widest ((fun e => digit_width e.1) <$> seen)
  /\ _format_tb self
     = (fun e => frame_str e.2 (number_padding self) +:+ newline) <$> seen.
Proof.
  intros Hinit. destruct (init_Ok _ _ _ _ _ _ _ Hinit) as (_ & Hframes & Hpad).
  destruct (kept_ok_scan rt (options self) tb 0 scan0 kept_ok_scan0)
    as [Hf Hp].
  rewrite (scan_examined_window_from rt (options self) tb 0 scan0) in Hf, Hp.
  cbn [scan0 examined app] in Hf, Hp.
  cbn zeta. rewrite Hframes, Hpad. split; [exact Hf | split; [exact Hp |]].
  unfold _format_tb. rewrite Hframes, Hpad, Hf.
  rewrite <- list_fmap_compose. reflexivity.
Qed.

(** In the sample chain the third entry, of line 100000, is excluded: four
    frames are kept and the padding is 4, the width of 1203. *)
Lemma excluded_frames_leave_no_trace_witness :
  __init__ Sample.rt Sample.ValueError (Some Sample.bad_input) Sample.tb5 ∅
    "<XTraceback>" = Ok Sample.xtb
  /\ length (tb_frames Sample.xtb) = 4%nat
  /\ number_padding Sample.xtb = 4
  /\ number_padding Sample.xtb
     = widest ((fun e => digit_width e.1)
                 <$> List.filter included
                       (build Sample.rt (options Sample.xtb)
                          <$> List.filter
                                (fun it => in_window (options Sample.xtb) it.1)
                                (indexed Sample.tb5 0))).
Proof.
  split; [vm_compute; reflexivity|].
  split; [vm_compute; reflexivity|].
  split; [vm_compute; reflexivity|].
  apply (excluded_frames_leave_no_trace Sample.rt Sample.ValueError
           (Some Sample.bad_input) Sample.tb5 ∅ "<XTraceback>" Sample.xtb).
  vm_compute. reflexivity.
Defined.

(** ** Strings *)

Lemma sapp_cons (c : ascii) (s t : string) :
  String c s +:+ t = String c (s +:+ t).
Proof. reflexivity. Qed.

Lemma sapp_nil_l (s : string) : EmptyString +:+ s = s.
Proof. reflexivity. Qed.

Lemma sapp_assoc (a b c : string) : (a +:+ b) +:+ c = a +:+ (b +:+ c).
Proof.
  induction a as [|x a IH]; [reflexivity|]. now rewrite !sapp_cons, IH.
Qed.

Lemma sapp_nil_r (a : string) : a +:+ EmptyString = a.
Proof.
  induction a as [|x a IH]; [reflexivity|]. now rewrite sapp_cons, IH.
Qed.

Lemma occurs_in_refl (t : string) : occurs_in t t.
Proof. exists EmptyString, EmptyString. now rewrite sapp_nil_r. Qed.

Lemma occurs_in_context (t s pre post : string) :
  occurs_in t s -> occurs_in t (pre +:+ s +:+ post).
Proof.
  intros (a & b & ->). exists (pre +:+ a), (b +:+ post).
  now rewrite !sapp_assoc.
Qed.

Lemma occurs_in_join (sep x : string) (l : list string) :
  x ∈ l -> occurs_in x (PyStr.join sep l).
Proof.
  induction l as [|y l IH]; intros Hin; [inversion Hin|].
  apply elem_of_cons in Hin as [->|Hin].
  - destruct l as [|z l]; [apply occurs_in_refl|].
    exists EmptyString, (sep +:+ PyStr.join sep (z :: l)). reflexivity.
  - destruct l as [|z l]; [inversion Hin|].
    change (PyStr.join sep (y :: z :: l))
      with (y +:+ sep +:+ PyStr.join sep (z :: l)).
    rewrite <- sapp_assoc, <- (sapp_nil_r (PyStr.join sep (z :: l))).
    apply occurs_in_context, IH, Hin.
Qed.

(** ** [XTracebackOptions] *)

Lemma lookup_foldr_delete (ks : list string) (m : gmap string PyVal) (k : string) :
  foldr delete m ks !! k = if decide (k ∈ ks) then None else m !! k.
Proof.
  induction ks as [|k' ks IH]; cbn [foldr].
  - destruct (decide _) as [Hin|_]; [inversion Hin | reflexivity].
  - rewrite lookup_delete, IH.
    destruct (decide (k' = k)) as [->|Hne].
    + rewrite decide_True; [reflexivity | left].
    + destruct (decide (k ∈ ks)) as [Hin|Hnin].
      * rewrite decide_True; [reflexivity | now right].
      * rewrite decide_False; [reflexivity|].
        intros [?|?]%elem_of_cons; congruence.
Qed.

Lemma leftover_lookup (bag : gmap string PyVal) (k : string) :
  XTracebackOptions.leftover bag !! k
  = if decide (k ∈ XTracebackOptions.recognized) then None else bag !! k.
Proof. apply lookup_foldr_delete. Qed.

(** Every key left in the dictionary is spelled in the message. *)
Lemma unsupported_lists_key (rest : gmap string PyVal) (k : string) (v : PyVal) :
  rest !! k = Some v ->
  exists msg, XTracebackOptions.unsupported rest = TypeError msg
              /\ occurs_in (PyStr.repr k) msg.
Proof.
  intros Hk. eexists. split; [reflexivity|].
  unfold repr_dict.
  rewrite <- (sapp_assoc "Unsupported options: " "{").
  apply occurs_in_context.
  apply elem_of_map_to_list in Hk.
  apply (list_elem_of_fmap_2 repr_item) in Hk.
  apply (occurs_in_join ", ") in Hk.
  destruct Hk as (a & b & ->).
  exists a, (": " +:+ py_repr v +:+ b).
  unfold repr_item. cbn [fst snd]. now rewrite !sapp_assoc.
Qed.

(** C3.  A bag with only recognized keys constructs; a bag with a key outside
    the value options and the flags raises, and the message spells every
    such key of the bag. *)
Theorem options_reject_unknown_keys (bag : gmap string PyVal) :
  ((forall k, is_Some (bag !! k) -> k ∈ XTracebackOptions.recognized) ->
   exists o, XTracebackOptions.__init__ bag = Ok o)
  /\ (forall k0, is_Some (bag !! k0) -> k0 ∉ XTracebackOptions.recognized ->
      exists msg,
        XTracebackOptions.__init__ bag = Raise (TypeError msg)
        /\ forall k, is_Some (bag !! k) -> k ∉ XTracebackOptions.recognized ->
                     occurs_in (PyStr.repr k) msg).
Proof.
  unfold XTracebackOptions.__init__. split.
  - intros Hall. eexists. rewrite decide_True; [reflexivity|].
    apply map_size_empty_iff, map_empty. intros k. rewrite leftover_lookup.
    destruct (decide _) as [|Hk]; [reflexivity|].
    destruct (bag !! k) eqn:E; [|reflexivity].
    exfalso. apply Hk, Hall. now rewrite E.
  - intros k0 [v0 Hk0] Hn0.
    rewrite decide_False.
    + eexists. split; [reflexivity|]. intros k [v Hk] Hn.
      destruct (unsupported_lists_key (XTracebackOptions.leftover bag) k v)
        as (msg & [= <-] & Hocc); [|exact Hocc].
      rewrite leftover_lookup, decide_False; assumption.
    + intros Hsize%map_size_empty_iff.
      assert (XTracebackOptions.leftover bag !! k0 = Some v0) as Hl
        by (rewrite leftover_lookup, decide_False; assumption).
      rewrite Hsize, lookup_empty in Hl. discriminate.
Qed.

Lemma options_reject_unknown_keys_witness :
  (exists o, XTracebackOptions.__init__ Sample.bag_ok = Ok o)
  /\ (exists msg,
        XTracebackOptions.__init__ Sample.bag_bad = Raise (TypeError msg)
        /\ forall k, is_Some (Sample.bag_bad !! k) ->
                     k ∉ XTracebackOptions.recognized ->
                     occurs_in (PyStr.repr k) msg).
Proof.
  split.
  - apply (proj1 (options_reject_unknown_keys Sample.bag_ok)).
    intros k [v Hk]. unfold Sample.bag_ok in Hk.
    apply lookup_insert_Some in Hk as [[<- _]|[_ Hk]];
      [apply (bool_decide_unpack _); vm_compute; exact I|].
    apply lookup_insert_Some in Hk as [[<- _]|[_ Hk]];
      [apply (bool_decide_unpack _); vm_compute; exact I|].
    rewrite lookup_empty in Hk. discriminate.
  - apply (proj2 (options_reject_unknown_keys Sample.bag_bad) "colour").
    + exists (VBool true). vm_compute. reflexivity.
    + apply (bool_decide_unpack _). vm_compute. exact I.
Defined.

(** ** Lines *)

Lemma no_nl_app (a b : string) :
  PyStr.no_nl (a +:+ b) = PyStr.no_nl a && PyStr.no_nl b.
Proof.
  induction a as [|c a IH]; [reflexivity|].
  rewrite sapp_cons. cbn [PyStr.no_nl]. rewrite IH. now rewrite andb_assoc.
Qed.

Lemma no_nl_spaces (n : Z) : PyStr.no_nl (PyStr.spaces n) = true.
Proof.
  unfold PyStr.spaces. induction (Z.to_nat n) as [|k IH]; [reflexivity|].
  cbn [PyStr.repeat_char PyStr.no_nl]. rewrite IH. reflexivity.
Qed.

Lemma no_nl_lstrip_chars (chars s : string) :
  PyStr.no_nl s = true -> PyStr.no_nl (PyStr.lstrip_chars chars s) = true.
Proof.
  induction s as [|c s IH]; [reflexivity|]. intros H.
  cbn [PyStr.lstrip_chars]. destruct (PyStr.mem c chars); [|exact H].
  cbn [PyStr.no_nl] in H. apply andb_true_iff in H as [_ H]. exact (IH H).
Qed.

Lemma no_nl_rstrip_chars (chars s : string) :
  PyStr.no_nl s = true -> PyStr.no_nl (PyStr.rstrip_chars chars s) = true.
Proof.
  induction s as [|c s IH]; [reflexivity|]. intros H.
  cbn [PyStr.no_nl] in H. apply andb_true_iff in H as [Hc H].
  cbn [PyStr.rstrip_chars]. specialize (IH H).
  destruct (PyStr.rstrip_chars chars s) as [|d r].
  - destruct (PyStr.mem c chars); [reflexivity|].
    cbn [PyStr.no_nl]. now rewrite Hc.
  - cbn [PyStr.no_nl] in *. now rewrite Hc, IH.
Qed.

Lemma no_nl_strip (s : string) :
  PyStr.no_nl s = true -> PyStr.no_nl (PyStr.strip s) = true.
Proof.
  intros H. unfold PyStr.strip, PyStr.rstrip, PyStr.lstrip.
  now apply no_nl_rstrip_chars, no_nl_lstrip_chars.
Qed.

(** No piece of [splitlines] holds a line break. *)
Lemma no_nl_splitlines_from (s : string) :
  forall after_cr : bool,
    Forall (fun l => PyStr.no_nl l = true) (PyStr.splitlines_from after_cr s).
Proof.
  induction s as [|c s IH]; intros after_cr; cbn [PyStr.splitlines_from].
  - constructor.
  - destruct (Ascii.eqb c PyStr.nl) eqn:Enl.
    + destruct after_cr; [apply IH | constructor; [reflexivity | apply IH]].
    + destruct (Ascii.eqb c PyStr.cr).
      * constructor; [reflexivity | apply IH].
      * specialize (IH false).
        destruct (PyStr.splitlines_from false s) as [|l ls].
        -- constructor; [|constructor]. cbn [PyStr.no_nl]. now rewrite Enl.
        -- inversion IH as [|? ? Hl Hls]; subst. constructor; [|exact Hls].
           cbn [PyStr.no_nl]. now rewrite Enl, Hl.
Qed.

Lemma split_nl_no_nl (a : string) :
  PyStr.no_nl a = true -> PyStr.split_nl a = [a].
Proof.
  unfold PyStr.split_nl. induction a as [|c a IH]; [reflexivity|].
  cbn [PyStr.no_nl PyStr.split_on]. intros [Hc Ha]%andb_true_iff.
  apply negb_true_iff in Hc. rewrite Hc, (IH Ha). reflexivity.
Qed.

(** A line without a break, a break, and the rest. *)
Lemma split_nl_line (a rest : string) :
  PyStr.no_nl a = true ->
  PyStr.split_nl (a +:+ newline +:+ rest) = a :: PyStr.split_nl rest.
Proof.
  unfold PyStr.split_nl. induction a as [|c a IH].
  - intros _. unfold newline. rewrite sapp_nil_l, sapp_cons, sapp_nil_l.
    cbn [PyStr.split_on]. now rewrite Ascii.eqb_refl.
  - cbn [PyStr.no_nl]. intros [Hc Ha]%andb_true_iff.
    apply negb_true_iff in Hc. rewrite sapp_cons. cbn [PyStr.split_on].
    rewrite Hc, (IH Ha). reflexivity.
Qed.

Lemma split_nl_wrapped (pad rest : string) (lines : list string) :
  PyStr.no_nl pad = true ->
  Forall (fun l => PyStr.no_nl l = true) lines ->
  PyStr.split_nl
    (pad +:+ PyStr.join (newline +:+ pad) lines +:+ "," +:+ newline +:+ rest)
  = wrapped pad lines ++ PyStr.split_nl rest.
Proof.
  intros Hpad. induction lines as [|x xs IH]; intros Hall.
  - cbn [PyStr.join wrapped]. rewrite sapp_nil_l, <- sapp_assoc.
    rewrite split_nl_line; [reflexivity|].
    now rewrite no_nl_app, Hpad.
  - inversion Hall as [|? ? Hx Hxs]; subst. destruct xs as [|y ys].
    + cbn [PyStr.join wrapped].
      rewrite <- (sapp_assoc x), <- (sapp_assoc pad).
      rewrite split_nl_line; [reflexivity|].
      now rewrite !no_nl_app, Hpad, Hx.
    + change (PyStr.join (newline +:+ pad) (x :: y :: ys))
        with (x +:+ (newline +:+ pad) +:+ PyStr.join (newline +:+ pad) (y :: ys)).
      change (wrapped pad (x :: y :: ys))
        with ((pad +:+ x) :: wrapped pad (y :: ys)).
      rewrite (sapp_assoc x), (sapp_assoc (newline +:+ pad)).
      rewrite (sapp_assoc newline pad), <- (sapp_assoc pad x).
      rewrite split_nl_line; [|now rewrite no_nl_app, Hpad, Hx].
      cbn [app]. f_equal. apply IH, Hxs.
Qed.

Lemma wrapped_length (pad : string) (lines : list string) :
  length (wrapped pad lines) = Nat.max 1 (length lines).
Proof.
  induction lines as [|x xs IH]; [reflexivity|].
  destruct xs as [|y ys]; [reflexivity|].
  change (wrapped pad (x :: y :: ys))
    with ((pad +:+ x) :: wrapped pad (y :: ys)).
  cbn [length] in *. rewrite IH. lia.
Qed.

Lemma startswith_app (p r : string) : PyStr.startswith p (p +:+ r) = true.
Proof.
  induction p as [|c p IH]; [reflexivity|].
  rewrite sapp_cons. cbn [PyStr.startswith]. now rewrite Ascii.eqb_refl.
Qed.

Lemma wrapped_padded (pad : string) (lines : list string) :
  Forall (fun l => PyStr.startswith pad l = true) (wrapped pad lines).
Proof.
  induction lines as [|x xs IH].
  - repeat constructor. apply startswith_app.
  - destruct xs as [|y ys].
    + repeat constructor. apply startswith_app.
    + change (wrapped pad (x :: y :: ys))
        with ((pad +:+ x) :: wrapped pad (y :: ys)).
      constructor; [apply startswith_app | exact IH].
Qed.

(** ** Re-wrapping *)

Lemma REFORMAT_no_nl (t : PyType) (start end_ : string) :
  REFORMAT t = Some (start, end_) ->
  PyStr.no_nl start = true /\ PyStr.no_nl end_ = true.
Proof. destruct t; intros [= <- <-]; split; reflexivity. Qed.

Lemma no_nl_components (s : string) :
  Forall (fun l => PyStr.no_nl l = true) (PyStr.strip <$> PyStr.splitlines s).
Proof.
  apply Forall_fmap. unfold PyStr.splitlines.
  eapply Forall_impl; [apply no_nl_splitlines_from|].
  intros l Hl. now apply no_nl_strip.
Qed.

(** C6.  A value whose exact type is in [REFORMAT] and whose one-line
    rendering does not fit the print width behind the name is written over
    several lines: the opening delimiter on the line of the name; then the
    components, which are the lines of the rendering, taken without the
    characters of the delimiters at its two ends and each stripped of
    whitespace, one to a line behind [indent + 4] spaces, a comma after the
    last (a comma alone where there is no component); then a last line that
    holds the closing delimiter alone behind [indent + 4] spaces. *)
Theorem rewrap_layout (rt : Runtime) (self : XTraceback) (key : string)
    (value : Obj) (indent : Z) (prefix separator start end_ : string) :
  REFORMAT (type_of value) = Some (start, end_) ->
  indent + PyStr.len prefix + PyStr.len key + PyStr.len separator
    + PyStr.len (rendering value) > print_width rt self ->
  let pad := PyStr.spaces (indent + 4) in
  let components :=
    PyStr.strip
      <$> PyStr.splitlines
            (PyStr.rstrip_chars end_
               (PyStr.lstrip_chars start (rendering value))) in
  exists w : string,
    _format_variable rt self key value indent prefix separator
      = PyStr.spaces indent +:+ prefix +:+ key +:+ separator +:+ w
    /\ PyStr.split_nl w = start :: wrapped pad components ++ [pad +:+ end_]
    /\ length (wrapped pad components) = Nat.max 1 (length components)
    /\ Forall (fun l => PyStr.startswith pad l = true) (wrapped pad components).
Proof.
  intros HR Hwide pad components.
  destruct value as [u s|ty pf]; [destruct u; discriminate HR|].
  destruct (REFORMAT_no_nl _ _ _ HR) as [Hstart Hend].
  unfold _format_variable, truncate, format_value.
  apply Z.gt_lt, Z.gtb_lt in Hwide. rewrite Hwide, HR.
  fold pad. fold components.
  exists (start +:+ newline +:+ pad +:+ PyStr.join (newline +:+ pad) components
            +:+ "," +:+ newline +:+ pad +:+ end_).
  split; [|split; [|split]].
  - cbn [PyStr.join]. rewrite !sapp_nil_l.
    now rewrite (sapp_assoc newline pad), (sapp_assoc newline pad).
  - rewrite split_nl_line by exact Hstart. f_equal.
    rewrite split_nl_wrapped;
      [|apply no_nl_spaces | apply no_nl_components].
    f_equal. apply split_nl_no_nl.
    unfold pad. now rewrite no_nl_app, Hend, no_nl_spaces.
  - apply wrapped_length.
  - apply wrapped_padded.
Qed.

(** A list of two names that [pprint] lays out over two lines: the two
    names come back, one to a line, behind eight spaces. *)
Lemma rewrap_layout_witness :
  exists w : string,
    _format_variable Sample.rt Sample.xtb "names" Sample.two_names 4
      EmptyString " = "
      = PyStr.spaces 4 +:+ EmptyString +:+ "names" +:+ " = " +:+ w
    /\ PyStr.split_nl w
       = "[" :: wrapped (PyStr.spaces (4 + 4))
                  (PyStr.strip
                     <$> PyStr.splitlines
                           (PyStr.rstrip_chars "]"
                              (PyStr.lstrip_chars "["
                                 (rendering Sample.two_names))))
             ++ [PyStr.spaces (4 + 4) +:+ "]"]
    /\ length (wrapped (PyStr.spaces (4 + 4))
                 (PyStr.strip
                    <$> PyStr.splitlines
                          (PyStr.rstrip_chars "]"
                             (PyStr.lstrip_chars "["
                                (rendering Sample.two_names)))))
       = Nat.max 1
           (length (PyStr.strip
                      <$> PyStr.splitlines
                            (PyStr.rstrip_chars "]"
                               (PyStr.lstrip_chars "["
                                  (rendering Sample.two_names)))))
    /\ Forall (fun l => PyStr.startswith (PyStr.spaces (4 + 4)) l = true)
         (wrapped (PyStr.spaces (4 + 4))
            (PyStr.strip
               <$> PyStr.splitlines
                     (PyStr.rstrip_chars "]"
                        (PyStr.lstrip_chars "["
                           (rendering Sample.two_names))))).
Proof.
  apply (rewrap_layout Sample.rt Sample.xtb "names" Sample.two_names 4
           EmptyString " = " "[" "]");
    [reflexivity | vm_compute; reflexivity].
Defined.

(** The text of that example, line by line. *)
Lemma rewrap_two_names :
  PyStr.split_nl
    (_format_variable Sample.rt Sample.xtb "names" Sample.two_names 4
       EmptyString " = ")
  = [ "    names = [";
      "        '" +:+ PyStr.repeat_char "a" 40 +:+ "',";
      "        '" +:+ PyStr.repeat_char "b" 40 +:+ "',";
      "        ]" ].
Proof. vm_compute. reflexivity. Qed.

(** The delimiters are taken off as sets of characters, so that a component
    that begins or ends with one of their characters loses it: behind a name
    of 80 characters, [set([(1, 2)])] comes out without the parentheses of
    its one element. *)
Lemma rewrap_nested_set :
  PyStr.split_nl
    (format_value Sample.rt Sample.xtb 87 4
       (OObj TSet (Some "set([(1, 2)])")))
  = [ "set(["; "        1, 2,"; "        ])" ].
Proof. vm_compute. reflexivity. Qed.

(** ** Truncation *)

Lemma len_app (a b : string) : PyStr.len (a +:+ b) = PyStr.len a + PyStr.len b.
Proof.
  unfold PyStr.len. induction a as [|c a IH]; [reflexivity|].
  rewrite sapp_cons. cbn [String.length]. lia.
Qed.

Lemma len_take (n : nat) (s : string) :
  PyStr.len (PyStr.take n s) = Z.min (Z.of_nat n) (PyStr.len s).
Proof.
  unfold PyStr.len. revert s. induction n as [|n IH]; intros [|c s];
    cbn [PyStr.take String.length]; try lia.
  specialize (IH s). lia.
Qed.

(** Where the name leaves room, that is where the bound of the slice is not
    negative, the cut string and its ellipsis take what the width leaves
    after the name and the quotes. *)
Lemma truncate_fits (rt : Runtime) (self : XTraceback) (base_size : Z)
    (u : bool) (s : string) :
  PyStr.len s > print_width rt self * 2 ->
  0 <= base_size ->
  0 <= print_width rt self - base_size - 2 - 3 ->
  exists t,
    truncate rt self base_size (OStr u s) = OStr u t
    /\ endswith "..." t
    /\ PyStr.len t = print_width rt self - base_size - 2.
Proof.
  intros Hlong Hbase Hroom. unfold truncate, PyStr.slice_to.
  apply Z.gt_lt, Z.gtb_lt in Hlong as Hlong'. rewrite Hlong'.
  apply Z.leb_le in Hroom as Hroom'. rewrite Hroom'.
  eexists. split; [reflexivity|]. split; [eexists; reflexivity|].
  rewrite len_app, len_take. change (PyStr.len "...") with 3. lia.
Qed.

(** C2, at a name of 80 characters.  The print width is 80 and the string
    has 200 characters, more than twice the width; the bound of the slice is
    [80 - 87 - 5 = -12], which drops the last 12 characters only, and the
    value rendered between the quotes has 191 characters. *)
Theorem truncate_long_name :
  print_width Sample.rt Sample.xtb = 80
  /\ truncate Sample.rt Sample.xtb (4 + 0 + 80 + 3) Sample.long_value
     = OStr false (PyStr.repeat_char "x" 188 +:+ "...")
  /\ PyStr.len (PyStr.repeat_char "x" 188 +:+ "...") = 191
  /\ _format_variable Sample.rt Sample.xtb Sample.long_key Sample.long_value
       4 EmptyString " = "
     = "    " +:+ Sample.long_key +:+ " = '"
         +:+ PyStr.repeat_char "x" 188 +:+ "...'".
Proof. repeat split; vm_compute; reflexivity. Qed.

(** ** The header *)

Lemma occurrences_app (x : string) (l1 l2 : list string) :
  occurrences x (l1 ++ l2) = (occurrences x l1 + occurrences x l2)%nat.
Proof. unfold occurrences. now rewrite List.filter_app, length_app. Qed.

Lemma format_tb_nil (self : XTraceback) :
  _format_tb self = [] <-> tb_frames self = [].
Proof.
  unfold _format_tb. destruct (tb_frames self); split; intros H;
    try reflexivity; discriminate H.
Qed.

(** C4, as the code has it.  With no frame kept, no header is put in: the
    output is the lines of the exception alone.  With a frame kept, the
    header is the first line, before the frame blocks and the lines of the
    exception, and the only further occurrences of its text are frame blocks
    and exception lines that spell it themselves. *)
Theorem header_with_frames (rt : Runtime) (self : XTraceback) :
  (tb_frames self = [] ->
   _format_exception rt self = _format_exception_only rt self)
  /\ (tb_frames self <> [] ->
      _format_exception rt self
        = header :: _format_tb self ++ _format_exception_only rt self
      /\ occurrences header (_format_exception rt self)
         = (1 + occurrences header (_format_tb self)
              + occurrences header (_format_exception_only rt self))%nat).
Proof.
  unfold _format_exception. split.
  - intros Hnil. apply format_tb_nil in Hnil. now rewrite Hnil.
  - intros Hne. destruct (_format_tb self) as [|b bs] eqn:E.
    + apply format_tb_nil in E. contradiction.
    + split; [reflexivity|].
      change ((header :: b :: bs) ++ _format_exception_only rt self)
        with ([header] ++ (b :: bs) ++ _format_exception_only rt self).
      rewrite !occurrences_app. unfold occurrences at 1.
      cbn [List.filter]. rewrite String.eqb_refl. reflexivity.
Qed.

Lemma header_with_frames_witness :
  _format_exception Sample.rt Sample.xtb_bare
    = _format_exception_only Sample.rt Sample.xtb_bare
  /\ _format_exception Sample.rt Sample.xtb
     = header :: _format_tb Sample.xtb
         ++ _format_exception_only Sample.rt Sample.xtb.
Proof.
  split.
  - apply (header_with_frames Sample.rt Sample.xtb_bare). reflexivity.
  - apply (header_with_frames Sample.rt Sample.xtb). vm_compute. discriminate.
Defined.

(** An exception type given as the string of the header, no value and no
    frame: no frame is kept, and the one line of the output is the header. *)
Lemma header_with_frames_counterexample :
  __init__ Sample.rt Sample.header_etype None [] ∅ "<XTraceback>"
    = Ok Sample.xtb_header
  /\ tb_frames Sample.xtb_header = []
  /\ _format_exception Sample.rt Sample.xtb_header = [header].
Proof. repeat split; vm_compute; reflexivity. Qed.

(** ** File names *)

(** C7, as the code has it.  Without shortening the name is returned as it
    is.  With shortening, on a file system where [realpath] leaves a real
    path alone and leads the relative path back to the file, a name whose
    real path is not under the standard library's root is normalized to a
    fixed point; and so is a name whose real path is under the root, as long
    as the current directory is not under the root itself: as long as the
    tagged name, resolved against the current directory, is a real path
    outside the root whose relative path is the tagged name again, and
    shorter. *)
Theorem format_filename_idempotent (rt : Runtime) (self : XTraceback)
    (filename : string) :
  XTracebackOptions.shorten_filenames (options self) = false
  \/ (PyStr.startswith (_stdlib_path rt) (realpath rt filename) = false
      /\ realpath rt (realpath rt filename) = realpath rt filename
      /\ (forall os_path_relpath, relpath rt = Some os_path_relpath ->
            realpath rt (os_path_relpath (realpath rt filename))
            = realpath rt filename))
  \/ (PyStr.startswith (_stdlib_path rt) (realpath rt filename) = true
      /\ let tagged :=
           PyStr.replace (_stdlib_path rt) "<stdlib>" (realpath rt filename) in
         PyStr.startswith (_stdlib_path rt) (realpath rt tagged) = false
         /\ exists os_path_relpath,
              relpath rt = Some os_path_relpath
              /\ os_path_relpath (realpath rt tagged) = tagged
              /\ PyStr.len tagged < PyStr.len (realpath rt tagged)) ->
  _format_filename rt self (_format_filename rt self filename)
  = _format_filename rt self filename.
Proof.
  unfold _format_filename.
  intros [Hoff|[(Hout & Hreal & Hrel)|(Hunder & Hcwd & rel & Hsome & Hback & Hlen)]];
    [now rewrite Hoff | |];
    (destruct (XTracebackOptions.shorten_filenames (options self));
     [|reflexivity]).
  - rewrite Hout. destruct (relpath rt) as [rel|].
    + specialize (Hrel rel eq_refl).
      destruct (PyStr.len (rel (realpath rt filename))
                <? PyStr.len (realpath rt filename)) eqn:E.
      * now rewrite Hrel, Hout, E.
      * now rewrite Hreal, Hout, E.
    + now rewrite Hreal, Hout.
  - rewrite Hunder, Hcwd, Hsome, Hback.
    apply Z.ltb_lt in Hlen. now rewrite Hlen.
Qed.

(** From the directory of a project, a file of the project and a file of
    the standard library are both normalized to fixed points: [app.py] and
    [<stdlib>/os.py]. *)
Lemma format_filename_idempotent_witness :
  (_format_filename Sample.rt Sample.xtb "/home/u/proj/pkg/../app.py"
     = "app.py"
   /\ _format_filename Sample.rt Sample.xtb
        (_format_filename Sample.rt Sample.xtb "/home/u/proj/pkg/../app.py")
      = _format_filename Sample.rt Sample.xtb "/home/u/proj/pkg/../app.py")
  /\ (_format_filename Sample.rt Sample.xtb "/usr/lib/python2.7/os.py"
        = "<stdlib>/os.py"
      /\ _format_filename Sample.rt Sample.xtb
           (_format_filename Sample.rt Sample.xtb "/usr/lib/python2.7/os.py")
         = _format_filename Sample.rt Sample.xtb "/usr/lib/python2.7/os.py").
Proof.
  split; (split; [vm_compute; reflexivity|]).
  - apply (format_filename_idempotent Sample.rt Sample.xtb
             "/home/u/proj/pkg/../app.py").
    right. left.
    split; [vm_compute; reflexivity|]. split; [vm_compute; reflexivity|].
    intros rel [= <-]. vm_compute. reflexivity.
  - apply (format_filename_idempotent Sample.rt Sample.xtb
             "/usr/lib/python2.7/os.py").
    right. right.
    split; [vm_compute; reflexivity|]. cbv zeta.
    split; [vm_compute; reflexivity|].
    exists (PosixPath.relpath "/home/u/proj").
    split; [reflexivity|]. split; vm_compute; reflexivity.
Defined.

(** With the current directory under the standard library's root, [os.py]
    of the library becomes [<stdlib>/os.py], and that, normalized again,
    something else. *)
Lemma format_filename_idempotent_counterexample :
  _format_filename Sample.rt_site Sample.xtb "/usr/lib/python2.7/os.py"
    = "<stdlib>/os.py"
  /\ _format_filename Sample.rt_site Sample.xtb "<stdlib>/os.py"
     = "<stdlib>/site-packages/proj/<stdlib>/os.py"
  /\ _format_filename Sample.rt_site Sample.xtb
       (_format_filename Sample.rt_site Sample.xtb "/usr/lib/python2.7/os.py")
     <> _format_filename Sample.rt_site Sample.xtb "/usr/lib/python2.7/os.py".
Proof.
  split; [vm_compute; reflexivity|]. split; [vm_compute; reflexivity|].
  vm_compute. discriminate.
Qed.


(** ** Printing and the stream *)

Section Stream.

Variable rt : Runtime.

Lemma bind_no_runtime_error {A B : Type} (m : M A) (k : A -> M B) (st : St) :
  no_runtime_error (m st).1 ->
  (forall a st', no_runtime_error (k a st').1) ->
  no_runtime_error (bind m k st).1.
Proof.
  intros Hm Hk. unfold bind. destruct (m st) as [[a|e] st']; [apply Hk|].
  intros msg [= ->]. now apply (Hm msg).
Qed.

Lemma ret_no_runtime_error {A : Type} (a : A) (st : St) :
  no_runtime_error (ret a st).1.
Proof. intros msg. discriminate. Qed.

Lemma try_highlight_no_runtime_error (pyg : Pygments) (text : string) (st : St) :
  no_runtime_error (try_highlight pyg text st).1.
Proof.
  unfold try_highlight. destruct (highlight pyg text); intros msg; discriminate.
Qed.

Lemma unit_no_runtime_error (m : M unit) (st : St) :
  (exists st', m st = (Ok tt, st')) -> no_runtime_error (m st).1.
Proof. intros [st' ->] msg. discriminate. Qed.

Lemma highlight_no_runtime_error (text : string) (st : St) :
  no_runtime_error (_highlight rt text st).1.
Proof.
  unfold _highlight. destruct (pygments rt) as [pyg|].
  - apply bind_no_runtime_error; [apply ret_no_runtime_error|].
    intros self st1. apply bind_no_runtime_error.
    { destruct (_lexer self); [apply ret_no_runtime_error|].
      destruct st1. apply unit_no_runtime_error. eexists. reflexivity. }
    intros _ st2. apply bind_no_runtime_error; [apply ret_no_runtime_error|].
    intros self' st3. destruct (_formatter self').
    + apply try_highlight_no_runtime_error.
    + destruct (TerminalFormatter pyg).
      * apply bind_no_runtime_error.
        { destruct st3. apply unit_no_runtime_error. eexists. reflexivity. }
        intros _ st4. apply try_highlight_no_runtime_error.
      * apply bind_no_runtime_error.
        { destruct st3. apply unit_no_runtime_error. eexists. reflexivity. }
        intros _ st4. apply ret_no_runtime_error.
  - apply bind_no_runtime_error.
    { destruct st. apply unit_no_runtime_error. eexists. reflexivity. }
    intros _ st1. apply ret_no_runtime_error.
Qed.

Lemma mapM_highlight_no_runtime_error (lines : list string) :
  forall st : St, no_runtime_error (mapM (_highlight rt) lines st).1.
Proof.
  induction lines as [|x xs IH]; intros st; cbn [mapM].
  - apply ret_no_runtime_error.
  - apply bind_no_runtime_error; [apply highlight_no_runtime_error|].
    intros y st1. apply bind_no_runtime_error; [apply IH|].
    intros ys st2. apply ret_no_runtime_error.
Qed.

Lemma format_lines_no_runtime_error (lines : list string) (st : St) :
  no_runtime_error (_format_lines rt lines st).1.
Proof.
  unfold _format_lines. apply bind_no_runtime_error;
    [apply ret_no_runtime_error|].
  intros self st1. destruct (truthy (color self)).
  - apply mapM_highlight_no_runtime_error.
  - apply ret_no_runtime_error.
Qed.

Lemma str_lines_no_runtime_error (lines : list string) (st : St) :
  no_runtime_error (_str_lines rt lines st).1.
Proof.
  unfold _str_lines. apply bind_no_runtime_error;
    [apply ret_no_runtime_error|].
  intros self st1. destruct (truthy (color self)).
  - apply highlight_no_runtime_error.
  - apply ret_no_runtime_error.
Qed.

(** [_print_lines] raises its [RuntimeError] exactly when the stream is
    [None], and then leaves the object and the world as they were. *)
Lemma print_lines_stream (lines : list string) (self : XTraceback) (w : World) :
  (XTracebackOptions.stream (options self) = VNone <->
   exists msg, (_print_lines rt lines (self, w)).1 = Raise (RuntimeError msg))
  /\ (XTracebackOptions.stream (options self) = VNone ->
      (_print_lines rt lines (self, w)).2 = (self, w)).
Proof.
  unfold _print_lines, bind, get_self. cbn [fst snd].
  destruct (XTracebackOptions.stream (options self)) as [| | | |f|] eqn:E.
  - split; [split|]; [intros _; eexists| |]; reflexivity.
  - split; [split|]; [discriminate | intros [msg H]; discriminate H | discriminate].
  - split; [split|]; [discriminate | intros [msg H]; discriminate H | discriminate].
  - split; [split|]; [discriminate | intros [msg H]; discriminate H | discriminate].
  - split; [split|]; [discriminate | | discriminate].
    intros [msg H]. exfalso.
    pose proof (str_lines_no_runtime_error lines (self, w)) as Hs.
    destruct (_str_lines rt lines (self, w)) as [[text|e] [self' w']] eqn:E2.
    + cbn in H. discriminate H.
    + cbn in H. injection H as ->. exact (Hs msg eq_refl).
  - split; [split|]; [discriminate | intros [msg H]; discriminate H | discriminate].
Qed.

End Stream.

(** C8.  [print_tb] and [print_exception] raise the [RuntimeError] of a
    missing stream exactly when the stream option is [None], and then nothing
    is written or changed; [format_tb], [format_exception_only] and
    [format_exception] never raise it. *)
Theorem print_needs_stream (rt : Runtime) (self : XTraceback) (w : World) :
  (XTracebackOptions.stream (options self) = VNone <->
   exists msg, (print_tb rt (self, w)).1 = Raise (RuntimeError msg))
  /\ (XTracebackOptions.stream (options self) = VNone <->
      exists msg, (print_exception rt (self, w)).1 = Raise (RuntimeError msg))
  /\ (XTracebackOptions.stream (options self) = VNone ->
      (print_tb rt (self, w)).2 = (self, w)
      /\ (print_exception rt (self, w)).2 = (self, w))
  /\ no_runtime_error (format_tb rt (self, w)).1
  /\ no_runtime_error (format_exception_only rt (self, w)).1
  /\ no_runtime_error (format_exception rt (self, w)).1.
Proof.
  destruct (print_lines_stream rt (_format_tb self) self w) as [Htb Htb'].
  destruct (print_lines_stream rt (_format_exception rt self) self w)
    as [Hex Hex'].
  repeat split; try (apply Htb); try (apply Hex); try (apply Htb');
    try (apply Hex'); try assumption;
    apply (format_lines_no_runtime_error rt _ (self, w)).
Qed.

(** ** Highlighting *)

Lemma highlight_unavailable (rt : Runtime) (text : string) (st : St) :
  pygments rt = None -> (_highlight rt text st).1 = Ok text.
Proof.
  intros Hnone. unfold _highlight. rewrite Hnone. destruct st as [self w].
  reflexivity.
Qed.

Lemma mapM_highlight_unavailable (rt : Runtime) (lines : list string) :
  pygments rt = None ->
  forall st : St, (mapM (_highlight rt) lines st).1 = Ok lines.
Proof.
  intros Hnone. induction lines as [|x xs IH]; intros st; [reflexivity|].
  cbn [mapM]. unfold bind at 1.
  pose proof (highlight_unavailable rt x st Hnone) as Hx.
  destruct (_highlight rt x st) as [r st1]. cbn [fst] in Hx. subst r.
  unfold bind at 1. specialize (IH st1).
  destruct (mapM (_highlight rt) xs st1) as [r st2]. cbn [fst] in IH. subst r.
  reflexivity.
Qed.

Lemma format_lines_color_on (rt : Runtime) (self : XTraceback) (w : World)
    (lines : list string) :
  pygments rt = None ->
  (_format_lines rt lines (with_color (VBool true) self, w)).1 = Ok lines.
Proof.
  intros Hnone. unfold _format_lines, bind, get_self. cbn.
  now apply mapM_highlight_unavailable.
Qed.

Lemma format_lines_color_off (rt : Runtime) (self : XTraceback) (w : World)
    (lines : list string) :
  (_format_lines rt lines (with_color (VBool false) self, w)).1 = Ok lines.
Proof. reflexivity. Qed.

(** C9.  Where [pygments] could not be imported, each format operation and
    [__str__] return with [color=True] the very text they return with
    [color=False]: the lines as they were assembled. *)
Theorem color_without_pygments (rt : Runtime) (self : XTraceback) (w : World) :
  pygments rt = None ->
  ((format_tb rt (with_color (VBool true) self, w)).1 = Ok (_format_tb self)
   /\ (format_tb rt (with_color (VBool false) self, w)).1 = Ok (_format_tb self))
  /\ ((format_exception_only rt (with_color (VBool true) self, w)).1
        = Ok (_format_exception_only rt self)
      /\ (format_exception_only rt (with_color (VBool false) self, w)).1
        = Ok (_format_exception_only rt self))
  /\ ((format_exception rt (with_color (VBool true) self, w)).1
        = Ok (_format_exception rt self)
      /\ (format_exception rt (with_color (VBool false) self, w)).1
        = Ok (_format_exception rt self))
  /\ ((__str__ rt (with_color (VBool true) self, w)).1
        = Ok (PyStr.join EmptyString (_format_exception rt self))
      /\ (__str__ rt (with_color (VBool false) self, w)).1
        = Ok (PyStr.join EmptyString (_format_exception rt self))).
Proof.
  intros Hnone.
  repeat split;
    try (apply (format_lines_color_on rt self w _ Hnone));
    try reflexivity.
  unfold __str__, _str_lines, bind, get_self. cbn.
  now apply highlight_unavailable.
Qed.

Lemma color_without_pygments_witness :
  pygments Sample.rt = None
  /\ (format_exception Sample.rt (with_color (VBool true) Sample.xtb, world0)).1
     = Ok (_format_exception Sample.rt Sample.xtb)
  /\ (format_exception Sample.rt (with_color (VBool false) Sample.xtb, world0)).1
     = Ok (_format_exception Sample.rt Sample.xtb).
Proof.
  split; [reflexivity|].
  apply (color_without_pygments Sample.rt Sample.xtb world0). reflexivity.
Defined.

(** ** Automatic color *)

Lemma init_options (rt : Runtime) (ety : EType) (val : option Exc)
    (tb : list Traceback) (bag : gmap string PyVal) (repr_self : string)
    (self : XTraceback) :
  __init__ rt ety val tb bag repr_self = Ok self ->
  XTracebackOptions.__init__ bag = Ok (options self).
Proof. intros Hinit. now apply init_Ok in Hinit. Qed.

(** C10.  An object constructed from a bag that sets neither [stream] nor
    [color] resolves [color] to [False]; each format operation returns the
    lines as they were assembled and leaves the object and the world as they
    were: no lexer is built and nothing is warned. *)
Theorem no_stream_no_color (rt : Runtime) (ety : EType) (val : option Exc)
    (tb : list Traceback) (bag : gmap string PyVal) (repr_self : string)
    (self : XTraceback) (w : World) :
  bag !! "stream" = None ->
  bag !! "color" = None ->
  __init__ rt ety val tb bag repr_self = Ok self ->
  color self = VBool false
  /\ format_tb rt (self, w) = (Ok (_format_tb self), (self, w))
  /\ format_exception_only rt (self, w)
     = (Ok (_format_exception_only rt self), (self, w))
  /\ format_exception rt (self, w)
     = (Ok (_format_exception rt self), (self, w)).
Proof.
  intros Hstream Hcolor Hinit. apply init_options in Hinit.
  unfold XTracebackOptions.__init__ in Hinit.
  destruct (decide _) in Hinit; [|discriminate].
  injection Hinit as Hopts.
  assert (color self = VBool false) as Hc.
  { unfold color, tty_stream. rewrite <- Hopts.
    cbn [XTracebackOptions.color XTracebackOptions.stream].
    unfold XTracebackOptions.option_value. now rewrite Hstream, Hcolor. }
  split; [exact Hc|].
  unfold format_tb, format_exception_only, format_exception, _format_lines,
    bind, get_self, ret.
  cbn [fst]. rewrite Hc. repeat split.
Qed.

Lemma no_stream_no_color_witness :
  color Sample.xtb = VBool false
  /\ format_exception Sample.rt (Sample.xtb, world0)
     = (Ok (_format_exception Sample.rt Sample.xtb), (Sample.xtb, world0)).
Proof.
  assert (H := no_stream_no_color Sample.rt Sample.ValueError
                 (Some Sample.bad_input) Sample.tb5 ∅ "<XTraceback>"
                 Sample.xtb world0).
  destruct H as (Hc & _ & _ & Hf);
    [reflexivity | reflexivity | vm_compute; reflexivity |].
  split; [exact Hc | exact Hf].
Defined.

(** * Further properties of the code *)

(** ** The window of the loop *)

(** The loop of [__init__] builds a frame for exactly the entries of the
    chain whose position [i], counted from 0, passes both tests ([limit] is
    [None] or [i < limit], and [i >= offset]), in the order of the chain,
    each from its own frame, line number and position. *)
Theorem examined_window (rt : Runtime) (opts : XTracebackOptions.t)
    (tb : list Traceback) :
  examined (scan rt opts tb 0 scan0)
  = build rt opts <$> List.filter (fun it => in_window opts it.1) (indexed tb 0).
Proof.
  rewrite (scan_examined_window_from rt opts tb 0 scan0).
  cbn [scan0 examined app]. reflexivity.
Qed.

(** With an integer offset [o] and no limit, the loop builds a frame for
    [max 0 (L - max 0 o)] of the [L] entries of the chain. *)
Theorem examined_count_unlimited (rt : Runtime) (opts : XTracebackOptions.t)
    (tb : list Traceback) (o : Z) :
  XTracebackOptions.offset opts = VInt o ->
  XTracebackOptions.limit opts = VNone ->
  Z.of_nat (length (examined (scan rt opts tb 0 scan0)))
  = Z.max 0 (Z.of_nat (length tb) - Z.max 0 o).
Proof.
  intros Ho Hl. rewrite (scan_examined_unlimited rt opts o tb Ho Hl).
  cbn [scan0 examined length]. lia.
Qed.

Lemma examined_count_unlimited_witness :
  XTracebackOptions.offset Sample.defaults = VInt 0
  /\ XTracebackOptions.limit Sample.defaults = VNone
  /\ Z.of_nat (length (examined (scan Sample.rt Sample.defaults Sample.tb5 0
                                      scan0)))
     = Z.max 0 (Z.of_nat (length Sample.tb5) - Z.max 0 0).
Proof.
  split; [reflexivity | split; [reflexivity |]].
  apply (examined_count_unlimited Sample.rt Sample.defaults Sample.tb5 0);
    reflexivity.
Defined.

(** An object constructed with an integer offset [o] and an integer limit
    [l] keeps at most [max 0 (min l L - max 0 o)] frames of a chain of [L]
    entries, so never more than [l]. *)
Theorem kept_within_limit (rt : Runtime) (ety : EType) (val : option Exc)
    (tb : list Traceback) (bag : gmap string PyVal) (repr_self : string)
    (self : XTraceback) (o l : Z) :
  __init__ rt ety val tb bag repr_self = Ok self ->
  XTracebackOptions.offset (options self) = VInt o ->
  XTracebackOptions.limit (options self) = VInt l ->
  Z.of_nat (length (tb_frames self))
    <= Z.max 0 (Z.min l (Z.of_nat (length tb)) - Z.max 0 o)
  /\ Z.of_nat (length (tb_frames self)) <= Z.max 0 l.
Proof.
  intros Hinit Ho Hl.
  destruct (init_Ok _ _ _ _ _ _ _ Hinit) as (_ & Hframes & _).
  destruct (kept_ok_scan rt (options self) tb 0 scan0 kept_ok_scan0)
    as [Hf _].
  pose proof (scan_examined_from rt (options self) o l tb Ho Hl 0 scan0) as Hn.
  cbn [scan0 examined length] in Hn.
  rewrite Hframes, Hf, length_fmap.
  pose proof (List.filter_length_le included
                (examined (scan rt (options self) tb 0 scan0))) as Hle.
  lia.
Qed.

(** [offset=1, limit=4] on the sample chain: three entries are examined, one
    of them is excluded, two frames are kept. *)
Lemma kept_within_limit_witness :
  length (tb_frames Sample.xtb_1_4) = 2%nat
  /\ Z.of_nat (length (tb_frames Sample.xtb_1_4))
     <= Z.max 0 (Z.min 4 (Z.of_nat (length Sample.tb5)) - Z.max 0 1)
  /\ Z.of_nat (length (tb_frames Sample.xtb_1_4)) <= Z.max 0 4.
Proof.
  split; [vm_compute; reflexivity|].
  apply (kept_within_limit Sample.rt Sample.ValueError (Some Sample.bad_input)
           Sample.tb5 (<["offset" := VInt 1]> (<["limit" := VInt 4]> ∅))
           "<XTraceback>" Sample.xtb_1_4 1 4);
    vm_compute; reflexivity.
Defined.

(** ** Construction *)



Lemma option_value_None (bag : gmap string PyVal) (k key : string)
    (default : PyVal) :
  XTracebackOptions.option_value (<[k := VNone]> bag) key default
  = XTracebackOptions.option_value (delete k bag) key default.
Proof.
  unfold XTracebackOptions.option_value. destruct (decide (k = key)) as [->|Hne].
  - now rewrite lookup_insert_eq, lookup_delete_eq.
  - now rewrite lookup_insert_ne, lookup_delete_ne.
Qed.

Lemma flag_value_None (bag : gmap string PyVal) (k key : string)
    (default : bool) :
  XTracebackOptions.flag_value (<[k := VNone]> bag) key default
  = XTracebackOptions.flag_value (delete k bag) key default.
Proof.
  unfold XTracebackOptions.flag_value. destruct (decide (k = key)) as [->|Hne].
  - now rewrite lookup_insert_eq, lookup_delete_eq.
  - now rewrite lookup_insert_ne, lookup_delete_ne.
Qed.

Lemma leftover_None (bag : gmap string PyVal) (k : string) :
  k ∈ XTracebackOptions.recognized ->
  XTracebackOptions.leftover (<[k := VNone]> bag)
  = XTracebackOptions.leftover (delete k bag).
Proof.
  intros Hk. apply map_eq. intros k'. rewrite !leftover_lookup.
  destruct (decide (k' ∈ XTracebackOptions.recognized)) as [Hin|Hnin];
    [reflexivity|].
  assert (k <> k') by congruence.
  now rewrite lookup_insert_ne, lookup_delete_ne.
Qed.

(** Giving a recognized option or flag the value [None] is the same as not
    giving it: the outcome of the construction, options or exception, is
    the same. *)
Theorem option_None_is_absent (bag : gmap string PyVal) (k : string) :
  k ∈ XTracebackOptions.recognized ->
  XTracebackOptions.__init__ (<[k := VNone]> bag)
  = XTracebackOptions.__init__ (delete k bag).
Proof.
  intros Hk. unfold XTracebackOptions.__init__.
  now rewrite !option_value_None, !flag_value_None, (leftover_None bag k Hk).
Qed.

Lemma option_None_is_absent_witness :
  "limit" ∈ XTracebackOptions.recognized
  /\ XTracebackOptions.__init__ (<["limit" := VNone]> Sample.bag_ok)
     = XTracebackOptions.__init__ (delete "limit" Sample.bag_ok).
Proof.
  assert ("limit" ∈ XTracebackOptions.recognized) as H
    by (apply (bool_decide_unpack _); vm_compute; exact I).
  split; [exact H|].
  apply (option_None_is_absent Sample.bag_ok "limit" H).
Defined.

(** A [print_width] given to the constructor is not used: the width of an
    object constructed with any [print_width] other than [None] is
    [DEFAULT_WIDTH], 80. *)
Theorem print_width_option_unused (rt : Runtime) (ety : EType)
    (val : option Exc) (tb : list Traceback) (bag : gmap string PyVal)
    (repr_self : string) (self : XTraceback) (v : PyVal) :
  __init__ rt ety val tb bag repr_self = Ok self ->
  bag !! "print_width" = Some v ->
  is_None v = false ->
  print_width rt self = 80.
Proof.
  intros Hinit Hbag Hv. apply init_options in Hinit.
  unfold XTracebackOptions.__init__ in Hinit.
  destruct (decide _) in Hinit; [|discriminate].
  injection Hinit as Hopts.
  unfold print_width. rewrite <- Hopts.
  cbn [XTracebackOptions.print_width].
  unfold XTracebackOptions.option_value. rewrite Hbag, Hv, Hv. reflexivity.
Qed.

Lemma print_width_option_unused_witness :
  print_width Sample.rt Sample.xtb_wide = 80.
Proof.
  apply (print_width_option_unused Sample.rt Sample.ValueError
           (Some Sample.bad_input) Sample.tb5 Sample.bag_wide "<XTraceback>"
           Sample.xtb_wide (VInt 120));
    vm_compute; reflexivity.
Defined.

(** ** Variables *)

Lemma len_spaces (n : Z) : PyStr.len (PyStr.spaces n) = Z.max 0 n.
Proof.
  unfold PyStr.spaces, PyStr.len.
  assert (forall k : nat, String.length (PyStr.repeat_char " " k) = k) as H.
  { induction k as [|k IH]; [reflexivity|].
    cbn [PyStr.repeat_char String.length]. now rewrite IH. }
  rewrite H. lia.
Qed.

(** A value whose rendering, after the truncation, holds no line break and
    fits the print width behind the name is written as one line: the indent,
    the prefix, the name, the separator and the rendering, no line break in
    it where the prefix, the name and the separator have none; for an indent
    that is not negative the line has [base_size + len(pvalue)] characters,
    no more than the print width. *)
Theorem format_variable_fits (rt : Runtime) (self : XTraceback)
    (key : string) (value : Obj) (indent : Z) (prefix separator : string) :
  let base_size :=
    indent + PyStr.len prefix + PyStr.len key + PyStr.len separator in
  let pvalue := rendering (truncate rt self base_size value) in
  0 <= indent ->
  base_size + PyStr.len pvalue <= print_width rt self ->
  PyStr.no_nl pvalue = true ->
  PyStr.no_nl prefix = true ->
  PyStr.no_nl key = true ->
  PyStr.no_nl separator = true ->
  _format_variable rt self key value indent prefix separator
    = PyStr.spaces indent +:+ prefix +:+ key +:+ separator +:+ pvalue
  /\ PyStr.split_nl (_format_variable rt self key value indent prefix separator)
     = [_format_variable rt self key value indent prefix separator]
  /\ PyStr.len (_format_variable rt self key value indent prefix separator)
     = base_size + PyStr.len pvalue
  /\ PyStr.len (_format_variable rt self key value indent prefix separator)
     <= print_width rt self.
Proof.
  intros base_size pvalue Hindent Hfits Hpv Hprefix Hkey Hsep.
  assert (_format_variable rt self key value indent prefix separator
          = PyStr.spaces indent +:+ prefix +:+ key +:+ separator +:+ pvalue)
    as Heq.
  { unfold _format_variable, format_value. fold base_size. fold pvalue.
    assert ((base_size + PyStr.len pvalue >? print_width rt self) = false) as ->
      by (rewrite Z.gtb_ltb; apply Z.ltb_ge; exact Hfits).
    reflexivity. }
  rewrite Heq. split; [reflexivity|]. split.
  - apply split_nl_no_nl.
    now rewrite !no_nl_app, no_nl_spaces, Hprefix, Hkey, Hsep, Hpv.
  - rewrite !len_app, len_spaces. unfold base_size in *. split; lia.
Qed.

Lemma format_variable_fits_witness :
  _format_variable Sample.rt Sample.xtb "xs" Sample.short_list 4 EmptyString
    " = "
  = PyStr.spaces 4 +:+ EmptyString +:+ "xs" +:+ " = " +:+ "[1, 2, 3]"
  /\ PyStr.split_nl
       (_format_variable Sample.rt Sample.xtb "xs" Sample.short_list 4
          EmptyString " = ")
     = [_format_variable Sample.rt Sample.xtb "xs" Sample.short_list 4
          EmptyString " = "].
Proof.
  assert (H := format_variable_fits Sample.rt Sample.xtb "xs"
                 Sample.short_list 4 EmptyString " = ").
  cbv zeta in H.
  destruct H as (H1 & H2 & _);
    [vm_compute; discriminate | vm_compute; discriminate
     | reflexivity | reflexivity | reflexivity | reflexivity |].
  split; [exact H1 | exact H2].
Defined.







Lemma truncate_fits_witness :
  exists t,
    truncate Sample.rt Sample.xtb 12 Sample.long_value = OStr false t
    /\ endswith "..." t
    /\ PyStr.len t = print_width Sample.rt Sample.xtb - 12 - 2.
Proof.
  apply (truncate_fits Sample.rt Sample.xtb 12 false
           (PyStr.repeat_char "x" 200));
    vm_compute; [reflexivity | discriminate | discriminate].
Defined.

(** ** File names, further *)

Lemma replace_prefix (old new s : string) :
  old <> EmptyString ->
  PyStr.startswith old s = true ->
  exists rest, PyStr.replace old new s = new +:+ rest.
Proof.
  intros Hold Hpre. destruct old as [|a old]; [congruence|].
  unfold PyStr.replace. destruct s as [|c s]; [discriminate Hpre|].
  cbn [PyStr.replace_from]. rewrite Hpre. eexists. reflexivity.
Qed.

(** With shortening on, the name of a file whose real path starts with the
    standard library's root begins with the tag [<stdlib>]. *)
Theorem stdlib_tag (rt : Runtime) (self : XTraceback) (filename : string) :
  XTracebackOptions.shorten_filenames (options self) = true ->
  _stdlib_path rt <> EmptyString ->
  PyStr.startswith (_stdlib_path rt) (realpath rt filename) = true ->
  PyStr.startswith "<stdlib>" (_format_filename rt self filename) = true.
Proof.
  intros Hon Hroot Hunder. unfold _format_filename. rewrite Hon, Hunder.
  destruct (replace_prefix _ "<stdlib>" _ Hroot Hunder) as [rest ->].
  apply startswith_app.
Qed.

Lemma stdlib_tag_witness :
  PyStr.startswith "<stdlib>"
    (_format_filename Sample.rt Sample.xtb "/usr/lib/python2.7/json/decoder.py")
  = true.
Proof.
  apply (stdlib_tag Sample.rt Sample.xtb "/usr/lib/python2.7/json/decoder.py");
    [reflexivity | discriminate | vm_compute; reflexivity].
Defined.

(** With shortening on, the name of a file whose real path is not under the
    standard library's root is that real path, or the path relative to the
    current directory where that one is strictly shorter: never a longer
    text than the real path. *)
Theorem format_filename_shortens (rt : Runtime) (self : XTraceback)
    (filename : string) :
  XTracebackOptions.shorten_filenames (options self) = true ->
  PyStr.startswith (_stdlib_path rt) (realpath rt filename) = false ->
  (_format_filename rt self filename = realpath rt filename
   \/ exists os_path_relpath,
        relpath rt = Some os_path_relpath
        /\ _format_filename rt self filename
           = os_path_relpath (realpath rt filename)
        /\ PyStr.len (_format_filename rt self filename)
           < PyStr.len (realpath rt filename))
  /\ PyStr.len (_format_filename rt self filename)
     <= PyStr.len (realpath rt filename).
Proof.
  intros Hon Hout. unfold _format_filename. rewrite Hon, Hout.
  destruct (relpath rt) as [rel|]; [|split; [now left | lia]].
  destruct (Z.ltb_spec (PyStr.len (rel (realpath rt filename)))
                       (PyStr.len (realpath rt filename))) as [Hlt|Hge].
  - split; [right; exists rel; repeat split; exact Hlt | lia].
  - split; [now left | lia].
Qed.

Lemma format_filename_shortens_witness :
  PyStr.len (_format_filename Sample.rt Sample.xtb "/home/u/proj/pkg/../app.py")
  <= PyStr.len (realpath Sample.rt "/home/u/proj/pkg/../app.py").
Proof.
  apply (format_filename_shortens Sample.rt Sample.xtb
           "/home/u/proj/pkg/../app.py");
    [reflexivity | vm_compute; reflexivity].
Defined.

(** ** The lines of the output *)

Lemma endswith_refl (t : string) : endswith t t.
Proof. exists EmptyString. reflexivity. Qed.

Lemma endswith_app (t a s : string) : endswith t s -> endswith t (a +:+ s).
Proof. intros [pre ->]. exists (a +:+ pre). now rewrite sapp_assoc. Qed.

Lemma endswith_cons (t : string) (c : ascii) (s : string) :
  endswith t s -> endswith t (String c s).
Proof. intros [pre ->]. exists (String c pre). reflexivity. Qed.

Lemma syntax_lines_end (rt : Runtime) (self : XTraceback) (a : SyntaxArgs)
    (value_str : string) :
  Forall (endswith newline) (syntax_lines rt self a value_str).1.
Proof.
  unfold syntax_lines.
  assert (forall f n,
            endswith newline
              ("  File " +:+ String PyStr.dquote f
                 +:+ String PyStr.dquote (", line " +:+ n) +:+ newline)) as Hfile.
  { intros f n. do 3 apply endswith_app. apply endswith_refl. }
  destruct (badline a) as [b|]; [destruct (offset a) as [n|]|]; cbn [fst];
    repeat constructor; try apply Hfile;
    repeat (apply endswith_app); apply endswith_refl.
Qed.

(** Every line [_format_exception] returns, header, frame block or line of
    the exception, ends with a line break, so that the lines joined with the
    empty string form whole lines of text. *)
Theorem lines_end_with_newline (rt : Runtime) (self : XTraceback) :
  Forall (endswith newline) (_format_exception rt self).
Proof.
  unfold _format_exception.
  assert (Forall (endswith newline) (_format_tb self)) as Htb.
  { unfold _format_tb. apply Forall_fmap, Forall_forall. intros f _. cbn.
    apply endswith_app, endswith_refl. }
  assert (Forall (endswith newline) (_format_exception_only rt self)) as Hex.
  { assert (forall vs,
              Forall (endswith newline)
                (match value self with
                 | Some {| exc_syntax := Some (Some a) |} =>
                     syntax_lines rt self a vs
                 | _ => ([], vs)
                 end).1) as Hsyn.
    { intros vs. destruct (value self) as [[s0 u0 n0 [[a|]|]]|]; cbn [fst];
        try constructor. apply syntax_lines_end. }
    unfold _format_exception_only.
    match goal with
    | |- Forall _ (let '(lines, vs) := ?p in _) =>
        assert (Forall (endswith newline) p.1) as Hl by apply Hsyn;
        destruct p as [lines vs]
    end.
    cbn [fst] in Hl. apply Forall_app. split; [exact Hl|].
    constructor; [|constructor]. eexists. reflexivity. }
  apply Forall_app. split; [|exact Hex].
  destruct (_format_tb self) as [|b bs]; [constructor|].
  constructor; [|exact Htb].
  unfold header. apply endswith_app, endswith_refl.
Qed.






(** ** Effects of the format and print operations *)

Section Effects.

Variable rt : Runtime.

Lemma keeps_written_ret {A : Type} (a : A) : keeps_written (ret a).
Proof. intros st. reflexivity. Qed.

Lemma keeps_written_raise {A : Type} (e : PyError) :
  keeps_written (raise (A := A) e).
Proof. intros st. reflexivity. Qed.

Lemma keeps_written_bind {A B : Type} (m : M A) (k : A -> M B) :
  keeps_written m -> (forall a, keeps_written (k a)) ->
  keeps_written (bind m k).
Proof.
  intros Hm Hk st. unfold bind. specialize (Hm st).
  destruct (m st) as [[a|e] st']; cbn [snd] in *; [|exact Hm].
  now rewrite (Hk a st').
Qed.

Lemma keeps_written_warn (text : string) : keeps_written (warn text).
Proof. intros [self w]. reflexivity. Qed.

Lemma keeps_written_get_self : keeps_written get_self.
Proof. intros st. reflexivity. Qed.

Lemma keeps_written_set_lexer : keeps_written set_lexer.
Proof. intros [self w]. reflexivity. Qed.

Lemma keeps_written_set_formatter : keeps_written set_formatter.
Proof. intros [self w]. reflexivity. Qed.

Lemma keeps_written_try_highlight (pyg : Pygments) (text : string) :
  keeps_written (try_highlight pyg text).
Proof.
  unfold try_highlight. destruct (highlight pyg text);
    [apply keeps_written_ret | apply keeps_written_ret
     | apply keeps_written_raise].
Qed.

Lemma keeps_written_highlight (text : string) :
  keeps_written (_highlight rt text).
Proof.
  unfold _highlight. destruct (pygments rt) as [pyg|].
  - apply keeps_written_bind; [apply keeps_written_get_self|]. intros self.
    apply keeps_written_bind.
    { destruct (_lexer self);
        [apply keeps_written_ret | apply keeps_written_set_lexer]. }
    intros _. apply keeps_written_bind; [apply keeps_written_get_self|].
    intros self'. destruct (_formatter self').
    + apply keeps_written_try_highlight.
    + destruct (TerminalFormatter pyg).
      * apply keeps_written_bind; [apply keeps_written_set_formatter|].
        intros _. apply keeps_written_try_highlight.
      * apply keeps_written_bind; [apply keeps_written_warn|].
        intros _. apply keeps_written_ret.
  - apply keeps_written_bind; [apply keeps_written_warn|].
    intros _. apply keeps_written_ret.
Qed.

Lemma keeps_written_mapM (lines : list string) :
  keeps_written (mapM (_highlight rt) lines).
Proof.
  induction lines as [|x xs IH]; cbn [mapM]; [apply keeps_written_ret|].
  apply keeps_written_bind; [apply keeps_written_highlight|]. intros y.
  apply keeps_written_bind; [exact IH|]. intros ys. apply keeps_written_ret.
Qed.

Lemma keeps_written_format_lines (lines : list string) :
  keeps_written (_format_lines rt lines).
Proof.
  unfold _format_lines. apply keeps_written_bind;
    [apply keeps_written_get_self|].
  intros self. destruct (truthy (color self));
    [apply keeps_written_mapM | apply keeps_written_ret].
Qed.

Lemma keeps_written_str_lines (lines : list string) :
  keeps_written (_str_lines rt lines).
Proof.
  unfold _str_lines. apply keeps_written_bind;
    [apply keeps_written_get_self|].
  intros self. destruct (truthy (color self));
    [apply keeps_written_highlight | apply keeps_written_ret].
Qed.

Lemma mapM_highlight_warns (self : XTraceback) (lines : list string) :
  pygments rt = None ->
  forall w : World,
    mapM (_highlight rt) lines (self, w)
    = (Ok lines,
       (self, {| warned := warned w ++ repeat pygments_required (length lines);
                 written := written w |})).
Proof.
  intros Hnone. induction lines as [|x xs IH]; intros w.
  - cbn. rewrite app_nil_r. now destruct w.
  - cbn [mapM]. unfold bind at 1. unfold _highlight at 1. rewrite Hnone.
    change ((_ <- warn "highlighting not available - pygments is required" ;;
             ret x) (self, w))
      with (Ok x, (self, {| warned := warned w ++ [pygments_required];
                            written := written w |})).
    cbv beta iota. unfold bind at 1. rewrite IH.
    cbn [ret warned written length repeat]. now rewrite <- app_assoc.
Qed.

End Effects.

(** The format operations and [__str__] write nothing to the stream, with
    or without color, whether they return or raise. *)
Theorem format_never_writes (rt : Runtime) (st : St) :
  written (format_tb rt st).2.2 = written st.2
  /\ written (format_exception_only rt st).2.2 = written st.2
  /\ written (format_exception rt st).2.2 = written st.2
  /\ written (__str__ rt st).2.2 = written st.2.
Proof.
  repeat split;
    (apply (keeps_written_bind get_self); [apply keeps_written_get_self|];
     intros self;
     first [apply keeps_written_format_lines | apply keeps_written_str_lines]).
Qed.

(** Where [pygments] could not be imported and color is on, [format_exception]
    returns the lines it assembled, leaves the object as it was, and issues
    the warning that highlighting is not available once for each line. *)
Theorem format_warns_per_line (rt : Runtime) (self : XTraceback) (w : World) :
  pygments rt = None ->
  truthy (color self) = true ->
  format_exception rt (self, w)
  = (Ok (_format_exception rt self),
     (self,
      {| warned := warned w
                   ++ repeat pygments_required
                        (length (_format_exception rt self));
         written := written w |})).
Proof.
  intros Hnone Hcolor. unfold format_exception, _format_lines, bind, get_self.
  cbn [fst]. rewrite Hcolor. now apply mapM_highlight_warns.
Qed.

Lemma format_warns_per_line_witness :
  format_exception Sample.rt (with_color (VBool true) Sample.xtb, world0)
  = (Ok (_format_exception Sample.rt (with_color (VBool true) Sample.xtb)),
     (with_color (VBool true) Sample.xtb,
      {| warned :=
           warned world0
           ++ repeat pygments_required
                (length (_format_exception Sample.rt
                           (with_color (VBool true) Sample.xtb)));
         written := written world0 |})).
Proof.
  apply (format_warns_per_line Sample.rt (with_color (VBool true) Sample.xtb)
           world0); reflexivity.
Defined.

(** With a file as stream, [print_exception] writes, in one call of [write],
    the very text [__str__] returns, after the same effects on the object
    and the warnings; and it raises what [__str__] raises, writing nothing. *)
Theorem print_exception_writes_str (rt : Runtime) (self : XTraceback)
    (w : World) (f : Stream) :
  XTracebackOptions.stream (options self) = VFile f ->
  match __str__ rt (self, w) with
  | (Ok text, (self', w')) =>
      print_exception rt (self, w)
      = (Ok tt, (self', {| warned := warned w';
                           written := written w' ++ [text] |}))
  | (Raise e, st') => print_exception rt (self, w) = (Raise e, st')
  end.
Proof.
  intros Hfile.
  assert (print_exception rt (self, w)
          = bind (_str_lines rt (_format_exception rt self)) write (self, w))
    as ->.
  { cbv beta iota delta [print_exception _print_lines bind get_self fst].
    rewrite Hfile. reflexivity. }
  change (__str__ rt (self, w))
    with (_str_lines rt (_format_exception rt self) (self, w)).
  unfold bind.
  destruct (_str_lines rt (_format_exception rt self) (self, w))
    as [[text|e] [self' w']]; reflexivity.
Qed.

Lemma print_exception_writes_str_witness :
  print_exception Sample.rt (Sample.xtb_stderr, world0)
  = (Ok tt,
     (Sample.xtb_stderr,
      {| warned := [];
         written :=
           [PyStr.join EmptyString
              (_format_exception Sample.rt Sample.xtb_stderr)] |})).
Proof.
  exact (print_exception_writes_str Sample.rt Sample.xtb_stderr world0
           Sample.stderr eq_refl).
Defined.

(** ** Highlighting with [pygments] *)

Lemma highlight_available (rt : Runtime) (pyg : Pygments) (text : string)
    (self : XTraceback) (w : World) :
  pygments rt = Some pyg ->
  TerminalFormatter pyg = FormatterOk ->
  exists self',
    _highlight rt text (self, w)
    = (match highlight pyg text with
       | Highlighted colored => Ok colored
       | Interrupted => Ok text
       | Failed exc => Raise (PygmentsError exc)
       end, (self', w))
    /\ _lexer self' = Some tt /\ _formatter self' = Some tt
    /\ options self' = options self /\ tb_frames self' = tb_frames self
    /\ etype self' = etype self /\ value self' = value self
    /\ number_padding self' = number_padding self.
Proof.
  intros Hpyg Hfmt. unfold _highlight. rewrite Hpyg.
  cbv beta iota delta [bind get_self fst ret set_lexer set_formatter
                       try_highlight raise].
  destruct (_lexer self) as [[]|] eqn:El;
    cbn [_formatter]; destruct (_formatter self) as [[]|] eqn:Ef;
    rewrite ?Hfmt; cbv beta iota;
    destruct (highlight pyg text); eexists;
    (split; [reflexivity|]); cbn; repeat split; assumption.
Qed.

(** With [pygments] and its formatter at hand, [_highlight] returns the
    colored text; a [KeyboardInterrupt] raised while highlighting is caught
    and the text returned as it was; any other exception leaves the method.
    In each case the lexer and the formatter are kept in the object, and
    nothing is warned or written. *)
Theorem highlight_outcomes (rt : Runtime) (pyg : Pygments) (text : string)
    (self : XTraceback) (w : World) :
  pygments rt = Some pyg ->
  TerminalFormatter pyg = FormatterOk ->
  (_highlight rt text (self, w)).1
    = match highlight pyg text with
      | Highlighted colored => Ok colored
      | Interrupted => Ok text
      | Failed exc => Raise (PygmentsError exc)
      end
  /\ _lexer (_highlight rt text (self, w)).2.1 = Some tt
  /\ _formatter (_highlight rt text (self, w)).2.1 = Some tt
  /\ (_highlight rt text (self, w)).2.2 = w.
Proof.
  intros Hpyg Hfmt.
  destruct (highlight_available rt pyg text self w Hpyg Hfmt)
    as (self' & -> & Hl & Hf & _).
  repeat split; assumption.
Qed.

Lemma highlight_outcomes_witness :
  (_highlight Sample.rt_brackets "ValueError" (Sample.xtb, world0)).1
    = Ok "<ValueError>"
  /\ _lexer (_highlight Sample.rt_brackets "ValueError" (Sample.xtb, world0)).2.1
     = Some tt
  /\ _formatter
       (_highlight Sample.rt_brackets "ValueError" (Sample.xtb, world0)).2.1
     = Some tt
  /\ (_highlight Sample.rt_brackets "ValueError" (Sample.xtb, world0)).2.2
     = world0.
Proof.
  exact (highlight_outcomes Sample.rt_brackets Sample.brackets "ValueError"
           Sample.xtb world0 eq_refl eq_refl).
Defined.

(** Where [TerminalFormatter()] raises [ClassNotFound], [_highlight] returns
    the text as it was and warns with the text of the exception; the lexer
    is kept, the formatter stays unset, so that the next call tries the
    constructor again. *)
Theorem highlight_without_formatter (rt : Runtime) (pyg : Pygments)
    (exc text : string) (self : XTraceback) (w : World) :
  pygments rt = Some pyg ->
  TerminalFormatter pyg = ClassNotFound exc ->
  _formatter self = None ->
  (_highlight rt text (self, w)).1 = Ok text
  /\ (_highlight rt text (self, w)).2.2
     = {| warned := warned w ++ ["highlighting not available - " +:+ exc];
          written := written w |}
  /\ _lexer (_highlight rt text (self, w)).2.1 = Some tt
  /\ _formatter (_highlight rt text (self, w)).2.1 = None.
Proof.
  intros Hpyg Hfmt Hnone. unfold _highlight. rewrite Hpyg.
  cbv beta iota delta [bind get_self fst ret set_lexer warn].
  destruct (_lexer self) as [[]|] eqn:El; cbn [_formatter];
    rewrite Hnone, Hfmt; cbn; repeat split; assumption.
Qed.

Lemma highlight_without_formatter_witness :
  (_highlight Sample.rt_no_formatter "ValueError" (Sample.xtb, world0)).1
    = Ok "ValueError"
  /\ (_highlight Sample.rt_no_formatter "ValueError" (Sample.xtb, world0)).2.2
     = {| warned := warned world0
                    ++ ["highlighting not available - " +:+ "no terminal"];
          written := written world0 |}
  /\ _lexer
       (_highlight Sample.rt_no_formatter "ValueError" (Sample.xtb, world0)).2.1
     = Some tt
  /\ _formatter
       (_highlight Sample.rt_no_formatter "ValueError" (Sample.xtb, world0)).2.1
     = None.
Proof.
  exact (highlight_without_formatter Sample.rt_no_formatter Sample.no_formatter
           "no terminal" "ValueError" Sample.xtb world0
           eq_refl eq_refl eq_refl).
Defined.

Lemma mapM_highlight_available (rt : Runtime) (pyg : Pygments)
    (f : string -> string) (lines : list string) :
  pygments rt = Some pyg ->
  TerminalFormatter pyg = FormatterOk ->
  (forall text, highlight pyg text = Highlighted (f text)) ->
  forall (self : XTraceback) (w : World),
    exists self',
      mapM (_highlight rt) lines (self, w) = (Ok (f <$> lines), (self', w)).
Proof.
  intros Hpyg Hfmt Hf. induction lines as [|x xs IH]; intros self w.
  - exists self. reflexivity.
  - destruct (highlight_available rt pyg x self w Hpyg Hfmt)
      as (self1 & Hx & _).
    rewrite Hf in Hx. destruct (IH self1 w) as (self2 & Hxs).
    exists self2. cbn [mapM]. unfold bind at 1. rewrite Hx.
    unfold bind at 1. rewrite Hxs. reflexivity.
Qed.

(** With color on and a [pygments] that colors every text, [format_exception]
    colors each line on its own, while [__str__] colors the joined text as
    one: the one is the list of the colored lines, the other the colored
    whole. *)
Theorem lines_colored_one_by_one (rt : Runtime) (pyg : Pygments)
    (f : string -> string) (self : XTraceback) (w : World) :
  pygments rt = Some pyg ->
  TerminalFormatter pyg = FormatterOk ->
  (forall text, highlight pyg text = Highlighted (f text)) ->
  truthy (color self) = true ->
  (format_exception rt (self, w)).1 = Ok (f <$> _format_exception rt self)
  /\ (__str__ rt (self, w)).1
     = Ok (f (PyStr.join EmptyString (_format_exception rt self))).
Proof.
  intros Hpyg Hfmt Hf Hcolor. split.
  - cbv beta iota delta [format_exception _format_lines bind get_self fst].
    rewrite Hcolor.
    destruct (mapM_highlight_available rt pyg f (_format_exception rt self)
                Hpyg Hfmt Hf self w) as (self' & ->).
    reflexivity.
  - cbv beta iota zeta delta [__str__ _str_lines bind get_self fst].
    rewrite Hcolor.
    destruct (highlight_available rt pyg
                (PyStr.join EmptyString (_format_exception rt self)) self w
                Hpyg Hfmt) as (self' & -> & _).
    now rewrite Hf.
Qed.

Lemma lines_colored_one_by_one_witness :
  (format_exception Sample.rt_brackets
     (with_color (VBool true) Sample.xtb, world0)).1
  = Ok ((fun text => "<" +:+ text +:+ ">")
          <$> _format_exception Sample.rt_brackets
                (with_color (VBool true) Sample.xtb))
  /\ (__str__ Sample.rt_brackets
        (with_color (VBool true) Sample.xtb, world0)).1
     = Ok ("<" +:+ PyStr.join EmptyString
                     (_format_exception Sample.rt_brackets
                        (with_color (VBool true) Sample.xtb)) +:+ ">").
Proof.
  apply (lines_colored_one_by_one Sample.rt_brackets Sample.brackets
           (fun text => "<" +:+ text +:+ ">")
           (with_color (VBool true) Sample.xtb) world0);
    reflexivity.
Defined.

(** With a file as stream and color off, [print_tb] writes the frame blocks
    and [print_exception] the whole text, each joined into one string and
    written once; the object and the warnings are left as they were. *)
Theorem print_plain (rt : Runtime) (self : XTraceback) (w : World)
    (f : Stream) :
  XTracebackOptions.stream (options self) = VFile f ->
  truthy (color self) = false ->
  print_tb rt (self, w)
    = (Ok tt, (self, {| warned := warned w;
                        written := written w
                                   ++ [PyStr.join EmptyString (_format_tb self)] |}))
  /\ print_exception rt (self, w)
     = (Ok tt, (self, {| warned := warned w;
                         written := written w
                                    ++ [PyStr.join EmptyString
                                          (_format_exception rt self)] |})).
Proof.
  intros Hfile Hplain.
  split;
    cbv beta iota zeta delta [print_tb print_exception _print_lines _str_lines
                              bind get_self fst ret write];
    rewrite Hfile; cbv beta iota; rewrite Hplain; reflexivity.
Qed.

Lemma print_plain_witness :
  print_tb Sample.rt (Sample.xtb_stderr, world0)
    = (Ok tt,
       (Sample.xtb_stderr,
        {| warned := warned world0;
           written := written world0
                      ++ [PyStr.join EmptyString
                            (_format_tb Sample.xtb_stderr)] |}))
  /\ print_exception Sample.rt (Sample.xtb_stderr, world0)
     = (Ok tt,
        (Sample.xtb_stderr,
         {| warned := warned world0;
            written := written world0
                       ++ [PyStr.join EmptyString
                             (_format_exception Sample.rt
                                Sample.xtb_stderr)] |})).
Proof.
  exact (print_plain Sample.rt Sample.xtb_stderr world0 Sample.stderr
           eq_refl eq_refl).
Defined.
